(** * Stock dashboard backend: ingestion, store and rolling indicators

  A shallow embedding of [backend/config.py] and [backend/app.py].

  - [Config]   : the class attributes read from the process environment and
                 [Config.validate].
  - [Http]     : the JSON bodies and status codes the Flask views return.
  - [Db]       : the [stock_prices] table as [init_db] declares it, a
                 psycopg2 connection with its open transaction, and the
                 [INSERT ... ON CONFLICT DO NOTHING] statement.
  - [Pandas]   : [Series.rolling(window).mean()] and [.std()]: which
                 positions are missing ([min_periods = window], [ddof = 1]);
                 the float value the library computes elsewhere is a
                 parameter ([RollingKernels]).
  - [App]      : the views [health], [ready], [fetch_stock],
                 [get_indicators] and [get_tickers].
  - [Frontend] : the status message of the fetch button.

  Numbers the code holds as Python floats are kept abstract (class
  [Float64]); a float that pandas treats as missing (NaN, or a SQL NULL read
  back as [None]) is the cell [None], and so is a cell whose payload is a
  NaN that float arithmetic produced ([missing]). *)

From Stdlib Require Import ZArith Ascii String Floats.
From stdpp Require Import base option strings pretty gmap list sorting.

Local Open Scope string_scope.
Local Open Scope list_scope.

(* ===================================================================== *)
(** ** Python strings *)

Module Py.

(** [str.upper] on the ASCII letters (bytes outside a-z are kept). *)
Definition upper_ascii (c : ascii) : ascii :=
  let n := nat_of_ascii c in
  if (97 <=? n)%nat && (n <=? 122)%nat then ascii_of_nat (n - 32) else c.

Fixpoint upper (s : string) : string :=
  match s with
  | EmptyString => EmptyString
  | String c rest => String (upper_ascii c) (upper rest)
  end.

(** A raised exception carries its message, [str(e)]. *)
Inductive result (A : Type) : Type :=
| Return (a : A)
| Raise (msg : string).
Arguments Return {A} a.
Arguments Raise {A} msg.

#[global] Instance result_ret : MRet result := fun _ a => Return a.

#[global] Instance result_bind : MBind result := fun _ _ k r =>
  match r with
  | Return a => k a
  | Raise msg => Raise msg
  end.

(** [str.isascii]: every character is below 128. On such strings [upper]
    above is [str.upper]. *)
Fixpoint is_ascii (s : string) : bool :=
  match s with
  | EmptyString => true
  | String c rest => (nat_of_ascii c <? 128)%nat && is_ascii rest
  end.

(** [int(s)] on a plain decimal literal: an optional sign, then ASCII
    digits. (Python also strips surrounding whitespace and accepts digit
    groups joined by underscores and non-ASCII digits, and its message quotes
    the literal; the values the configuration is given are plain
    literals.) *)
Definition digit_of (c : ascii) : option Z :=
  let n := nat_of_ascii c in
  if (48 <=? n)%nat && (n <=? 57)%nat then Some (Z.of_nat (n - 48)) else None.

Fixpoint digits_from (acc : Z) (s : string) : option Z :=
  match s with
  | EmptyString => Some acc
  | String c rest =>
      match digit_of c with
      | Some d => digits_from (10 * acc + d) rest
      | None => None
      end
  end.

Definition unsigned_int (s : string) : result Z :=
  match s with
  | EmptyString => Raise "invalid literal for int() with base 10"
  | _ => match digits_from 0 s with
         | Some z => Return z
         | None => Raise "invalid literal for int() with base 10"
         end
  end.

Definition int (s : string) : result Z :=
  match s with
  | String "-" rest => z ← unsigned_int rest; Return (- z)%Z
  | String "+" rest => unsigned_int rest
  | _ => unsigned_int s
  end.

End Py.

(* ===================================================================== *)
(** ** backend/config.py *)

Module Config.
Import Py.

(** [os.getenv(key, default)] over the process environment. *)
Definition getenv (environ : gmap string string) (key dflt : string) : string :=
  default dflt (environ !! key).

Record t : Type := Build {
  DB_HOST : string;
  DB_PORT : Z;
  DB_USER : string;
  DB_PASSWORD : string;
  DB_NAME : string;
  LOG_LEVEL : string;
  PORT : Z;
  ENV : string
}.

(** The class body, evaluated once at import. *)
Definition load (environ : gmap string string) : result t :=
  db_port ← int (getenv environ "DB_PORT" "5432");
  port ← int (getenv environ "PORT" "8000");
  Return {| DB_HOST := getenv environ "DB_HOST" "postgres";
            DB_PORT := db_port;
            DB_USER := getenv environ "DB_USER" "postgres";
            DB_PASSWORD := getenv environ "DB_PASSWORD" "postgres";
            DB_NAME := getenv environ "DB_NAME" "stocks";
            LOG_LEVEL := getenv environ "LOG_LEVEL" "INFO";
            PORT := port;
            ENV := getenv environ "ENV" "development" |}.

(** The variables the class body reads. *)
Definition variables_read : list string :=
  ["DB_HOST"; "DB_PORT"; "DB_USER"; "DB_PASSWORD"; "DB_NAME";
   "LOG_LEVEL"; "PORT"; "ENV"].

(** [Config.validate]: [Return tt] is the normal return, [Raise] the
    [ValueError]. *)
Definition validate (cls : t) : result unit :=
  if negb (bool_decide (ENV cls ∈ ["development"; "staging"; "production"]))
  then Raise ("Invalid ENV: " +:+ ENV cls)
  else if bool_decide (DB_PASSWORD cls = "password")
          && bool_decide (ENV cls = "production")
  then Raise "Default DB_PASSWORD used in production!"
  else Return tt.

Definition DATABASE_URL (self : t) (show_int : Z -> string) : string :=
  "postgresql://" +:+ DB_USER self +:+ ":" +:+ DB_PASSWORD self +:+ "@"
    +:+ DB_HOST self +:+ ":" +:+ show_int (DB_PORT self) +:+ "/" +:+ DB_NAME self.

End Config.

(* ===================================================================== *)
(** ** Floats *)

(** The arithmetic the indicator code performs on float64 values. A cell
    [option F] is a float as pandas sees it: [None] is the missing marker
    (NaN, and what a SQL NULL becomes in a float column). *)
Class Float64 (F : Type) : Type := {
  fadd : F -> F -> F;
  fsub : F -> F -> F;
  fmul : F -> F -> F;
  fdiv : F -> F -> F;
  fsqrt : F -> F;
  feqb : F -> F -> bool;
  fis_nan : F -> bool;
  of_nat : nat -> F
}.

(** IEEE binary64, the format of a Python float. *)
#[global] Instance binary64 : Float64 float := {
  fadd := PrimFloat.add;
  fsub := PrimFloat.sub;
  fmul := PrimFloat.mul;
  fdiv := PrimFloat.div;
  fsqrt := PrimFloat.sqrt;
  feqb := PrimFloat.eqb;
  fis_nan := PrimFloat.is_nan;
  of_nat := fun n => PrimFloat.of_uint63 (Uint63.of_Z (Z.of_nat n))
}.

(** A Python float as a cell. *)
Definition cell_of_float (x : float) : option float :=
  if PrimFloat.is_nan x then None else Some x.

(** Elementwise arithmetic of two float cells: missing if either is. *)
Definition lift2 {F} (op : F -> F -> F) (x y : option F) : option F :=
  match x, y with
  | Some a, Some b => Some (op a b)
  | _, _ => None
  end.


(** The float results of pandas' rolling aggregations.

    pandas computes a rolling mean and a rolling variance online: values
    are added to and removed from running sums as the window moves. The
    float it holds at a position is therefore a function of the series up to
    that position; it agrees with the textbook formula over the window only
    up to rounding, and can differ from it altogether once a running sum has
    overflowed. That computation is the library's, not this repository's,
    and is a parameter here: [roll_mean_value w xs] is the library's result
    at the last position of [xs] for window [w], and [roll_std_value w ddof
    xs] likewise for the standard deviation. [Pandas] below models which
    positions the library leaves missing. *)
Class RollingKernels (F : Type) : Type := {
  roll_mean_value : nat -> list (option F) -> option F;
  roll_std_value : nat -> nat -> list (option F) -> option F
}.

(* ===================================================================== *)
(** ** Flask responses *)

Module Http.

Unset Elimination Schemes.
Inductive json (F : Type) : Type :=
| JStr (s : string)
| JInt (n : Z)
| JNum (x : option F)
| JTime (t : Z)
| JArr (items : list (json F))
| JObj (fields : list (string * json F)).
Set Elimination Schemes.
Arguments JStr {F} s.
Arguments JInt {F} n.
Arguments JNum {F} x.
Arguments JTime {F} t.
Arguments JArr {F} items.
Arguments JObj {F} fields.

Record response (F : Type) : Type := Response {
  body : json F;
  status_code : nat
}.
Arguments Response {F} body status_code.
Arguments body {F} r.
Arguments status_code {F} r.

(** A view that returns [jsonify(x), code]. *)
Definition jsonify_with {F} (x : json F) (code : nat) : response F :=
  Response x code.

(** A view that returns [jsonify(x)] alone: Flask sends status 200. *)
Definition jsonify {F} (x : json F) : response F :=
  Response x 200.

(** The keys of a JSON object body. *)
Definition keys {F} (x : json F) : list string :=
  match x with
  | JObj fields => fields.*1
  | _ => []
  end.

(** Every integer that occurs in a body, at the top level of an object or
    as the body itself. *)
Definition top_level_ints {F} (x : json F) : list Z :=
  match x with
  | JInt n => [n]
  | JObj fields =>
      omap (fun kv => match kv.2 with JInt n => Some n | _ => None end) fields
  | _ => []
  end.

End Http.

(* ===================================================================== *)
(** ** The store: PostgreSQL through psycopg2 *)

Module Db.
Import Py.

Inductive column : Set :=
| Col_time | Col_ticker | Col_open | Col_high | Col_low | Col_close | Col_volume.

(** One row of [stock_prices]. [time] and [ticker] are NOT NULL; the float
    columns and [volume] are nullable. *)
Record row (F : Type) : Type := Row {
  time : Z;
  ticker : string;
  open : option F;
  high : option F;
  low : option F;
  close : option F;
  volume : option F
}.
Arguments Row {F}.
Arguments time {F} r.
Arguments ticker {F} r.
Arguments open {F} r.
Arguments high {F} r.
Arguments low {F} r.
Arguments close {F} r.
Arguments volume {F} r.

(** An index of the table; a UNIQUE or PRIMARY KEY constraint is a unique
    index. *)
Record index : Set := Index {
  idx_unique : bool;
  idx_columns : list column
}.

Record table_def : Set := TableDef {
  not_null : list column;
  indexes : list index
}.

(** The table as [init_db] declares it: the CREATE TABLE statement names no
    PRIMARY KEY and no UNIQUE constraint, and the one index it adds,
    [idx_stock_prices_ticker_time], is a plain (non-unique) index. *)
Definition stock_prices_def : table_def :=
  {| not_null := [Col_time; Col_ticker];
     indexes := [ {| idx_unique := false; idx_columns := [Col_ticker; Col_time] |} ] |}.

(** The table the Store contract asks for: unique on [(ticker, time)]. *)
Definition unique_ticker_time_def : table_def :=
  {| not_null := [Col_time; Col_ticker];
     indexes := [ {| idx_unique := true; idx_columns := [Col_ticker; Col_time] |} ] |}.

Section Statements.
Context {F : Type} `{Float64 F}.

(** SQL [=] on a nullable column: NULL equals nothing. *)
Definition cell_eqb (x y : option F) : bool :=
  match x, y with
  | Some a, Some b => feqb a b
  | _, _ => false
  end.

Definition agree (c : column) (r s : row F) : bool :=
  match c with
  | Col_time => (time r =? time s)%Z
  | Col_ticker => String.eqb (ticker r) (ticker s)
  | Col_open => cell_eqb (open r) (open s)
  | Col_high => cell_eqb (high r) (high s)
  | Col_low => cell_eqb (low r) (low s)
  | Col_close => cell_eqb (close r) (close s)
  | Col_volume => cell_eqb (volume r) (volume s)
  end.

(** Would inserting [r] violate the unique index [ix]? *)
Definition violates (ix : index) (tbl : list (row F)) (r : row F) : bool :=
  idx_unique ix && existsb (fun s => forallb (fun c => agree c r s) (idx_columns ix)) tbl.

(** [INSERT INTO stock_prices ... ON CONFLICT DO NOTHING]: with no conflict
    target, the row is skipped when it violates any unique index of the
    table, and appended otherwise. *)
Definition insert_on_conflict_do_nothing
    (def : table_def) (tbl : list (row F)) (r : row F) : list (row F) :=
  if existsb (fun ix => violates ix tbl r) (indexes def) then tbl else tbl ++ [r].

(** The key of a row under an index on [(ticker, time)]. *)
Definition key_of (r : row F) : string * Z := (ticker r, time r).

(** The key and the price columns of a row: all but [volume]. *)
Definition key_and_prices (r : row F)
    : Z * string * option F * option F * option F * option F :=
  (time r, ticker r, open r, high r, low r, close r).

(** The table after a sequence of such inserts, in order. *)
Definition upsert_rows (def : table_def) (tbl : list (row F))
    (rows : list (row F)) : list (row F) :=
  foldl (insert_on_conflict_do_nothing def) tbl rows.

(** [SELECT ... WHERE ticker = %s ORDER BY time ASC]. *)
Definition time_le (r s : row F) : Prop := (time r <= time s)%Z.

#[global] Instance time_le_dec : RelDecision time_le.
Proof. intros r s. unfold time_le. apply _. Defined.

Definition select_by_ticker (tbl : list (row F)) (tk : string) : list (row F) :=
  merge_sort time_le (filter (fun r => ticker r = tk) tbl).

(** The server: is it reachable, after how many statements does it fail (and
    with which error), how is the table defined, and the committed rows. *)
Record database : Type := Database {
  reachable : bool;
  fault : option (nat * string);
  schema : table_def;
  stock_prices : list (row F)
}.

(** An open psycopg2 connection (autocommit off): the rows its transaction
    sees, committed ones and its own uncommitted writes. *)
Record connection : Type := Connection {
  conn_def : table_def;
  conn_rows : list (row F);
  conn_fault : option (nat * string)
}.

(** [get_db_connection]: [None] when [psycopg2.connect] raises. *)
Definition get_db_connection (db : database) : option connection :=
  if reachable db
  then Some {| conn_def := schema db;
               conn_rows := stock_prices db;
               conn_fault := fault db |}
  else None.

(** One round trip to the server: it raises once the fault is due. *)
Definition round_trip (conn : connection) : result connection :=
  match conn_fault conn with
  | Some (0, msg) => Raise msg
  | Some (S k, msg) =>
      Return {| conn_def := conn_def conn;
                conn_rows := conn_rows conn;
                conn_fault := Some (k, msg) |}
  | None => Return conn
  end.

(** [cur.execute("INSERT ...", r)]. *)
Definition execute_insert (conn : connection) (r : row F) : result connection :=
  conn' ← round_trip conn;
  Return {| conn_def := conn_def conn';
            conn_rows := insert_on_conflict_do_nothing (conn_def conn') (conn_rows conn') r;
            conn_fault := conn_fault conn' |}.

(** [cur.execute("SELECT ...", (tk,))] followed by [cur.fetchall()]. *)
Definition execute_select (conn : connection) (tk : string) : result (list (row F)) :=
  conn' ← round_trip conn;
  Return (select_by_ticker (conn_rows conn') tk).

(** [conn.commit()]: the transaction's rows become the committed table. *)
Definition commit (conn : connection) (db : database) : result database :=
  _ ← round_trip conn;
  Return {| reachable := reachable db;
            fault := fault db;
            schema := schema db;
            stock_prices := conn_rows conn |}.

(** One row of the summary query of [get_tickers]. *)
Record ticker_summary : Type := TickerSummary {
  ts_ticker : string;
  data_points : nat;
  last_updated : Z
}.

(** [MAX(time)] over the rows of a group (groups are never empty). *)
Definition max_time (group : list (row F)) : Z :=
  match group with
  | [] => 0%Z
  | r :: rest => foldr Z.max (time r) (time <$> rest)
  end.

(** The group of one ticker: [COUNT( * )] and [MAX(time)]. *)
Definition summary_of (tbl : list (row F)) (tk : string) : ticker_summary :=
  let group := filter (fun r => ticker r = tk) tbl in
  {| ts_ticker := tk;
     data_points := length group;
     last_updated := max_time group |}.

Definition last_updated_ge (a b : ticker_summary) : Prop :=
  (last_updated b <= last_updated a)%Z.

#[global] Instance last_updated_ge_dec : RelDecision last_updated_ge.
Proof. intros a b. unfold last_updated_ge. apply _. Defined.

(** [SELECT DISTINCT ticker, COUNT( * ), MAX(time) FROM stock_prices
    GROUP BY ticker ORDER BY last_updated DESC]. *)
Definition select_ticker_summary (tbl : list (row F)) : list ticker_summary :=
  merge_sort last_updated_ge (summary_of tbl <$> remove_dups (ticker <$> tbl)).

(** [cur.execute] of the summary query followed by [cur.fetchall()]. *)
Definition execute_summary (conn : connection) : result (list ticker_summary) :=
  conn' ← round_trip conn;
  Return (select_ticker_summary (conn_rows conn')).

End Statements.
Arguments upsert_rows : simpl never.
Arguments database F : clear implicits.
Arguments connection F : clear implicits.

End Db.

(* ===================================================================== *)
(** ** pandas: fixed-size rolling windows over a float column *)

Module Pandas.

Section Rolling.
Context {F : Type} `{Float64 F} `{RollingKernels F}.

(** The window that ends at position [i]: positions [max(0, i+1-window)]
    to [i]. *)
Definition window_at {A} (window i : nat) (xs : list A) : list A :=
  let start := i + 1 - window in
  take (i + 1 - start) (drop start xs).

(** The observations of a window: the payloads of its cells that are not
    missing. *)
Definition observations (win : list (option F)) : list F :=
  omap (fun c => match c with
                 | Some x => if fis_nan x then None else Some x
                 | None => None
                 end) win.

(** The result of [Series.rolling(window, min_periods)] followed by an
    aggregation, at position [i]: missing unless the window holds at least
    [min_periods] observations, and more than [ddof] of them; otherwise the
    value the library computed from the series so far. *)
Definition rolling_at (window min_periods ddof : nat)
    (value : list (option F) -> option F) (xs : list (option F)) (i : nat)
    : option F :=
  let nobs := length (observations (window_at window i xs)) in
  if decide (min_periods <= nobs /\ ddof < nobs)
  then value (take (i + 1) xs)
  else None.

Definition rolling_apply (window min_periods ddof : nat)
    (value : list (option F) -> option F) (xs : list (option F))
    : list (option F) :=
  imap (fun i _ => rolling_at window min_periods ddof value xs i) xs.

(** [Series.rolling(window=w).mean()]; [min_periods] defaults to the window
    size, and a mean needs at least one observation. *)
Definition rolling_mean (w : nat) (xs : list (option F)) : list (option F) :=
  rolling_apply w w 0 (roll_mean_value w) xs.

(** [Series.rolling(window=w).std()]; [ddof] defaults to 1, and the result
    is missing when there are no more than [ddof] observations. *)
Definition rolling_std (w : nat) (xs : list (option F)) : list (option F) :=
  let ddof := 1 in
  rolling_apply w w ddof (roll_std_value w ddof) xs.

(** [a + b] and [a - b] on two columns, and [a * k] by a scalar. *)
Definition col_add (a b : list (option F)) : list (option F) :=
  zip_with (lift2 fadd) a b.
Definition col_sub (a b : list (option F)) : list (option F) :=
  zip_with (lift2 fsub) a b.
Definition col_mul_scalar (a : list (option F)) (k : F) : list (option F) :=
  (fun x => lift2 fmul x (Some k)) <$> a.

End Rolling.

End Pandas.

(* ===================================================================== *)
(** ** yfinance: the bar source *)

Module Yf.

(** One row of the DataFrame [Ticker.history] returns; [idx] is its index
    label, the bar's timestamp. *)
Record bar (F : Type) : Type := Bar {
  idx : Z;
  Open : option F;
  High : option F;
  Low : option F;
  Close : option F;
  Volume : option F
}.
Arguments Bar {F}.
Arguments idx {F} b.
Arguments Open {F} b.
Arguments High {F} b.
Arguments Low {F} b.
Arguments Close {F} b.
Arguments Volume {F} b.

End Yf.

(* ===================================================================== *)
(** ** backend/app.py *)

Module App.
Import Py Http Db Pandas.

Section Views.
Context {F : Type} `{Float64 F} `{RollingKernels F}.

(** [yf.Ticker(ticker).history(period="1y")]: the bars in time order, or an
    exception. *)
Variable history : string -> result (list (Yf.bar F)).

(** The text of [ts.date()] inside an f-string. *)
Variable date_str : Z -> string.

Definition error_body (msg : string) : json F := JObj [("error", JStr msg)].

(** [/health] *)
Definition health : response F :=
  jsonify_with (JObj [("status", JStr "healthy")]) 200.

(** [/ready] *)
Definition ready (db : database F) : response F :=
  match get_db_connection db with
  | Some conn => jsonify_with (JObj [("status", JStr "ready")]) 200
  | None => jsonify (JObj [("status", JStr "not ready")])
  end.

(** The parameters of one INSERT of [fetch_stock], as the row they make.
    The server's cast of the [volume] parameter to the BIGINT column (it
    rounds, and rejects a NaN or an out-of-range value) is not modelled: the
    cell is kept as sent. *)
Definition insert_params (ticker : string) (b : Yf.bar F) : row F :=
  {| time := Yf.idx b;
     ticker := upper ticker;
     open := Yf.Open b;
     high := Yf.High b;
     low := Yf.Low b;
     close := Yf.Close b;
     volume := Yf.Volume b |}.

(** The loop [for idx, row in df.iterrows(): cur.execute(...)]. *)
Fixpoint insert_all (conn : connection F) (ticker : string)
    (df : list (Yf.bar F)) : result (connection F) :=
  match df with
  | [] => Return conn
  | b :: rest =>
      conn' ← execute_insert conn (insert_params ticker b);
      insert_all conn' ticker rest
  end.

(** [/api/fetch/<ticker>]. The view returns its response; the second
    component is the database afterwards. When a statement raises, the
    handler returns without [commit]: the connection is dropped and its
    transaction is rolled back, so the committed table is the one before the
    call. *)
Definition fetch_stock (db : database F) (ticker : string)
    : response F * database F :=
  match history ticker with
  | Raise msg => (jsonify_with (error_body msg) 500, db)
  | Return df =>
      match df with
      | [] => (jsonify_with (error_body ("No data found for " +:+ ticker)) 404, db)
      | first :: _ =>
          match get_db_connection db with
          | None => (jsonify_with (error_body "Database connection failed") 500, db)
          | Some conn =>
              match conn' ← insert_all conn ticker df; commit conn' db with
              | Raise msg => (jsonify_with (error_body msg) 500, db)
              | Return db' =>
                  (jsonify (JObj [
                     ("ticker", JStr (upper ticker));
                     ("rows_imported", JInt (Z.of_nat (length df)));
                     ("date_range",
                      JStr (date_str (Yf.idx first) +:+ " to "
                            +:+ date_str (Yf.idx (default first (last df)))))]),
                   db')
              end
          end
      end
  end.

(** One record of [df.to_dict("records")]. *)
Record indicator_record : Type := IndicatorRecord {
  ir_time : Z;
  ir_ticker : string;
  ir_close : option F;
  ir_volume : option F;
  sma_20 : option F;
  sma_50 : option F;
  sma_100 : option F;
  bb_mid : option F;
  bb_std : option F;
  bb_upper : option F;
  bb_lower : option F
}.


(** The cell of a column at a row position. *)
Definition at_row (col : list (option F)) (i : nat) : option F :=
  default None (col !! i).

(** Lines 184-200: the DataFrame of the fetched rows, sorted by [time], with
    the indicator columns added, as a list of records. *)
Definition compute_indicators (rows : list (row F)) : list indicator_record :=
  let df := merge_sort time_le rows in
  let closes := close <$> df in
  let c_sma_20 := rolling_mean 20 closes in
  let c_sma_50 := rolling_mean 50 closes in
  let c_sma_100 := rolling_mean 100 closes in
  let c_bb_mid := rolling_mean 20 closes in
  let c_bb_std := rolling_std 20 closes in
  let c_bb_upper := col_add c_bb_mid (col_mul_scalar c_bb_std (of_nat 2)) in
  let c_bb_lower := col_sub c_bb_mid (col_mul_scalar c_bb_std (of_nat 2)) in
  imap (fun i r =>
    {| ir_time := time r;
       ir_ticker := ticker r;
       ir_close := close r;
       ir_volume := volume r;
       sma_20 := at_row c_sma_20 i;
       sma_50 := at_row c_sma_50 i;
       sma_100 := at_row c_sma_100 i;
       bb_mid := at_row c_bb_mid i;
       bb_std := at_row c_bb_std i;
       bb_upper := at_row c_bb_upper i;
       bb_lower := at_row c_bb_lower i |}) df.


Definition record_json (r : indicator_record) : json F :=
  JObj [("time", JTime (ir_time r));
        ("ticker", JStr (ir_ticker r));
        ("close", JNum (ir_close r));
        ("volume", JNum (ir_volume r));
        ("sma_20", JNum (sma_20 r));
        ("sma_50", JNum (sma_50 r));
        ("sma_100", JNum (sma_100 r));
        ("bb_mid", JNum (bb_mid r));
        ("bb_std", JNum (bb_std r));
        ("bb_upper", JNum (bb_upper r));
        ("bb_lower", JNum (bb_lower r))].

(** The rows the SELECT of [get_indicators] fetches; [None] when the view
    fails before it has them. *)
Definition fetched_rows (db : database F) (ticker : string) : option (list (row F)) :=
  match get_db_connection db with
  | None => None
  | Some conn =>
      match execute_select conn (upper ticker) with
      | Raise _ => None
      | Return rows => Some rows
      end
  end.

(** [/api/indicators/<ticker>] *)
Definition get_indicators (db : database F) (ticker : string) : response F :=
  match get_db_connection db with
  | None => jsonify_with (error_body "Database connection failed") 500
  | Some conn =>
      match execute_select conn (upper ticker) with
      | Raise msg => jsonify_with (error_body msg) 500
      | Return [] => jsonify (error_body ("No data for " +:+ ticker))
      | Return rows =>
          jsonify (JObj [("ticker", JStr (upper ticker));
                         ("data", JArr (record_json <$> compute_indicators rows))])
      end
  end.

Definition summary_json (t : ticker_summary) : json F :=
  JObj [("ticker", JStr (ts_ticker t));
        ("data_points", JInt (Z.of_nat (data_points t)));
        ("last_updated", JTime (last_updated t))].

(** [/api/tickers] *)
Definition get_tickers (db : database F) : response F :=
  match get_db_connection db with
  | None => jsonify_with (error_body "Database connection failed") 500
  | Some conn =>
      match execute_summary conn with
      | Raise msg => jsonify_with (error_body msg) 500
      | Return rows =>
          jsonify (JObj [("tickers", JArr (summary_json <$> rows))])
      end
  end.

End Views.

End App.

(* ===================================================================== *)
(** ** frontend/app.py: the fetch button *)

Module Frontend.
Import Py Http.

Section Server.
Context {F : Type}.

(** [str(x)] of a decoded JSON value inside an f-string; [repr_other] stands
    for the text of values that are neither strings nor integers. *)
Variable repr_other : json F -> string.

Definition py_str (x : json F) : string :=
  match x with
  | JStr s => s
  | JInt n => pretty n
  | _ => repr_other x
  end.

(** The last binding of a key in the fields of an object. *)
Fixpoint last_binding (key : string) (fields : list (string * json F))
    : option (json F) :=
  match fields with
  | [] => None
  | (k, v) :: rest =>
      match last_binding key rest with
      | Some v' => Some v'
      | None => if String.eqb k key then Some v else None
      end
  end.

(** [d[key]] on [response.json()]: a missing key raises [KeyError(key)],
    whose text is the quoted key. *)
Definition getitem (d : json F) (key : string) : result (json F) :=
  match d with
  | JObj fields =>
      match last_binding key fields with
      | Some v => Return v
      | None => Raise ("'" +:+ key +:+ "'")
      end
  | JArr _ => Raise "list indices must be integers or slices, not str"
  | JStr _ | JTime _ => Raise "string indices must be integers, not 'str'"
  | JInt _ => Raise "'int' object is not subscriptable"
  | JNum _ => Raise "'float' object is not subscriptable"
  end.

(** [fetch_data]: the status message it leaves, given what
    [requests.get(f"{API_URL}/api/fetch/{ticker}")] produced (the decoded
    response, or the exception it raised). *)
Definition fetch_data (reply : result (response F)) (ticker : string) : string :=
  match
    response ← reply;
    if decide (status_code response = 200)
    then
      rows ← getitem (body response) "rows_imported";
      range ← getitem (body response) "date_range";
      Return ("    " +:+ ticker +:+ ": " +:+ py_str rows +:+ " rows imported"
              +:+ "(" +:+ py_str range +:+ ")")
    else
      err ← getitem (body response) "error";
      Return ("    Error: " +:+ py_str err)
  with
  | Return message => message
  | Raise msg => "    Error: " +:+ msg
  end.

End Server.

End Frontend.

(* ===================================================================== *)
(** ** Notions of the specification *)

Module Spec.


(** Partial progress of a batch that failed after [k] rows, as the Store
    contract words it: the first [k] rows are in the store, and the response
    reports [k] rows written and [n - k] left unattempted. *)
Definition partial_progress_reported {F} (batch : list (Db.row F)) (k : nat)
    (resp : Http.response F) (stored : list (Db.row F)) : Prop :=
  (forall r, r ∈ take k batch -> r ∈ stored)
  /\ Z.of_nat k ∈ Http.top_level_ints (Http.body resp)
  /\ Z.of_nat (length batch - k) ∈ Http.top_level_ints (Http.body resp).

(** A strictly increasing sequence of times. *)
Definition strictly_increasing (ts : list Z) : Prop :=
  forall i j a b, ts !! i = Some a -> ts !! j = Some b -> i < j -> (a < b)%Z.

End Spec.

(** Commutativity of the float product, which an expression such as
    [2 * x] against [x * 2] relies on. *)
Class Float64Laws (F : Type) `{Float64 F} : Prop := {
  fmul_comm : forall x y : F, fmul x y = fmul y x
}.

(* ===================================================================== *)
(** ** A reference kernel *)

(** The textbook formulas over the observations of the last window: the
    mean, and the standard deviation with divisor [n - ddof]. They stand in
    for the library's kernel where the views are evaluated at sample data;
    pandas' own results can differ from these in the last bits and after an
    overflow, and no property below depends on which kernel is used. *)
Module Textbook.
Import Pandas.

Section Formulas.
Context {F : Type} `{Float64 F}.

Definition fsum (xs : list F) : F := foldl fadd (of_nat 0) xs.

Definition mean (xs : list F) : F := fdiv (fsum xs) (of_nat (length xs)).

(** Sum of squared differences from the mean. *)
Definition ssqdm (xs : list F) : F :=
  let m := mean xs in
  fsum ((fun x => fmul (fsub x m) (fsub x m)) <$> xs).

Definition var (ddof : nat) (xs : list F) : F :=
  fdiv (ssqdm xs) (of_nat (length xs - ddof)).

Definition last_window (w : nat) (xs : list (option F)) : list F :=
  observations (window_at w (length xs - 1) xs).

Definition kernels : RollingKernels F :=
  {| roll_mean_value := fun w xs => Some (mean (last_window w xs));
     roll_std_value := fun w ddof xs =>
                         Some (fsqrt (var ddof (last_window w xs))) |}.

End Formulas.
End Textbook.

(* ===================================================================== *)
(** ** Sample data at binary64 *)

Module Sample.
Import Py Db.

(** A price as a float cell. *)
Definition price (n : nat) : option float := cell_of_float (of_nat n).

(** The bar of day [n], every price equal to [n]. *)
Definition daily_bar (n : nat) : Yf.bar float :=
  {| Yf.idx := 86400 * Z.of_nat n;
     Yf.Open := price n; Yf.High := price n; Yf.Low := price n;
     Yf.Close := price n; Yf.Volume := price 1000 |}.


(** Days [1..n]. *)
Definition daily_bars (n : nat) : list (Yf.bar float) := daily_bar <$> seq 1 n.

(** A source that knows one ticker. *)
Definition source (known : string) (bars : list (Yf.bar float))
    (ticker : string) : result (list (Yf.bar float)) :=
  if String.eqb ticker known then Return bars else Return [].

(** Days since the epoch, standing for the calendar date. *)
Definition day_number (t : Z) : string := "day " +:+ pretty (t `div` 86400)%Z.

(** A reachable server with the table of [init_db], still empty. *)
Definition fresh_db : database float :=
  {| reachable := true; fault := None;
     schema := stock_prices_def; stock_prices := [] |}.

(** The same server failing at its [k+1]-th statement. *)
Definition failing_db (k : nat) (msg : string) : database float :=
  {| reachable := true; fault := Some (k, msg);
     schema := stock_prices_def; stock_prices := [] |}.

Definition unreachable_db : database float :=
  {| reachable := false; fault := None;
     schema := stock_prices_def; stock_prices := [] |}.

(** A reachable server whose empty table has the unique index. *)
Definition fresh_unique_db : database float :=
  {| reachable := true; fault := None;
     schema := unique_ticker_time_def; stock_prices := [] |}.

(** The fresh server after one fetch of three days for ticker [t]. *)
Definition loaded_db : database float :=
  (App.fetch_stock (source "t" (daily_bars 3)) day_number fresh_db "t").2.


End Sample.

(* ===================================================================== *)
(** * Properties *)

(** ** Rolling windows *)

Module PandasFacts.
Import Pandas Spec.

Section Windows.
Context {F : Type} `{Float64 F}.








Section Kernel.
Variables (w mp ddof : nat) (value : list (option F) -> option F).


Lemma length_rolling_apply (xs : list (option F)) :
  length (rolling_apply w mp ddof value xs) = length xs.
Proof. unfold rolling_apply. by rewrite length_imap. Qed.





End Kernel.
End Windows.
End PandasFacts.

(** ** The indicator engine *)

Module EngineFacts.
Import Py Http Db Pandas App PandasFacts.

#[global] Instance time_le_trans {F} : Transitive (@time_le F).
Proof. intros r s t. unfold time_le. lia. Qed.

#[global] Instance time_le_total {F} : Total (@time_le F).
Proof. intros r s. unfold time_le. lia. Qed.

Section Engine.
Context {F : Type} `{Float64 F} `{RollingKernels F}.


Lemma compute_indicators_length (rows : list (row F)) :
  length (compute_indicators rows) = length rows.
Proof.
  unfold compute_indicators. cbv zeta. rewrite length_imap.
  apply Permutation_length, merge_sort_Permutation.
Qed.

Lemma compute_indicators_times (rows : list (row F)) :
  ir_time <$> compute_indicators rows = time <$> merge_sort time_le rows.
Proof.
  unfold compute_indicators. cbv zeta. rewrite fmap_imap.
  generalize (merge_sort time_le rows) at 1 3. intros df.
  apply list_eq. intros i. rewrite list_lookup_imap, list_lookup_fmap.
  by destruct (df !! i).
Qed.




End Engine.
End EngineFacts.

(** binary64 satisfies the laws: IEEE multiplication is commutative. *)
Lemma SFmul_comm (prec emax : Z) (x y : SpecFloat.spec_float) :
  SpecFloat.SFmul prec emax x y = SpecFloat.SFmul prec emax y x.
Proof.
  destruct x as [sx|sx| |sx mx ex], y as [sy|sy| |sy my ey]; cbn;
    try reflexivity; rewrite ?(xorb_comm sx sy); try reflexivity.
  rewrite (Pos.mul_comm mx my), (Z.add_comm ex ey). reflexivity.
Qed.

#[global] Instance binary64_laws : Float64Laws float.
Proof.
  split. intros x y. simpl. apply Prim2SF_inj.
  rewrite !mul_spec. apply SFmul_comm.
Qed.

Module IndicatorClaims.
Import Py Http Db Pandas App PandasFacts EngineFacts.

Section Claims.
Context {F : Type} `{Float64 F} `{RollingKernels F}.


End Claims.
End IndicatorClaims.

(** ** The store and the ingestion view *)

Module StoreFacts.
Import Py Http Db App.

Section Store.
Context {F : Type} `{Float64 F}.
Variable history : string -> result (list (Yf.bar F)).
Variable date_str : Z -> string.

(** With the table of [init_db] no insert is ever skipped. *)
Lemma insert_without_unique_index (tbl : list (row F)) (r : row F) :
  insert_on_conflict_do_nothing stock_prices_def tbl r = tbl ++ [r].
Proof. reflexivity. Qed.

Lemma upsert_rows_without_unique_index (tbl rows : list (row F)) :
  upsert_rows stock_prices_def tbl rows = tbl ++ rows.
Proof.
  revert tbl. induction rows as [|r rows IH]; intros tbl; simpl.
  - by rewrite app_nil_r.
  - change (upsert_rows stock_prices_def (tbl ++ [r]) rows = tbl ++ r :: rows).
    rewrite IH. by rewrite <- app_assoc.
Qed.

(** The insert loop on a healthy connection. *)
Lemma insert_all_healthy (conn : connection F) (ticker : string)
    (df : list (Yf.bar F)) :
  conn_fault conn = None ->
  insert_all conn ticker df =
    Return {| conn_def := conn_def conn;
              conn_rows := upsert_rows (conn_def conn) (conn_rows conn)
                             (insert_params ticker <$> df);
              conn_fault := None |}.
Proof.
  revert conn. induction df as [|b df IH]; intros conn Hf; simpl.
  - destruct conn; simpl in *; by subst.
  - unfold execute_insert, round_trip. rewrite Hf. simpl.
    rewrite IH by done. reflexivity.
Qed.

(** The insert loop on a connection that fails at statement [k+1]: it
    raises inside the loop when [k] is below the number of bars, and hands
    the fault on to what follows otherwise. *)
Lemma insert_all_faulty (conn : connection F) (ticker : string)
    (df : list (Yf.bar F)) (k : nat) (msg : string) :
  conn_fault conn = Some (k, msg) ->
  if decide (k < length df)
  then insert_all conn ticker df = Raise msg
  else exists conn', insert_all conn ticker df = Return conn'
                     /\ conn_fault conn' = Some (k - length df, msg).
Proof.
  revert conn k. induction df as [|b df IH]; intros conn k Hf.
  - case_decide; [simpl in *; lia|]. exists conn. simpl. by rewrite Nat.sub_0_r.
  - simpl insert_all. unfold execute_insert, round_trip. rewrite Hf.
    destruct k as [|k].
    + case_decide; [reflexivity | simpl in *; lia].
    + simpl.
      match goal with
      | |- context [insert_all ?c _ _] => specialize (IH c k eq_refl)
      end.
      repeat case_decide; simpl in *; try lia; exact IH.
Qed.

(** A fetch that meets a healthy server and a non-empty source. *)
Lemma fetch_stock_healthy (db : database F) (ticker : string)
    (first : Yf.bar F) (rest : list (Yf.bar F)) :
  history ticker = Return (first :: rest) ->
  reachable db = true -> fault db = None ->
  fetch_stock history date_str db ticker =
    (jsonify (JObj [
       ("ticker", JStr (upper ticker));
       ("rows_imported", JInt (Z.of_nat (length (first :: rest))));
       ("date_range",
        JStr (date_str (Yf.idx first) +:+ " to "
              +:+ date_str (Yf.idx (default first (last (first :: rest))))))]),
     {| reachable := true; fault := None; schema := schema db;
        stock_prices := upsert_rows (schema db) (stock_prices db)
                          (insert_params ticker <$> first :: rest) |}).
Proof.
  intros Hsrc Hup Hf. unfold fetch_stock, get_db_connection.
  rewrite Hsrc, Hup.
  rewrite insert_all_healthy by (simpl; done). simpl.
  unfold commit, round_trip. simpl. rewrite Hf, Hup. reflexivity.
Qed.

End Store.
End StoreFacts.

Module IngestionClaims.
Import Py Http Db App StoreFacts.

Section Claims.
Context {F : Type} `{Float64 F}.
Variable history : string -> result (list (Yf.bar F)).
Variable date_str : Z -> string.

(** C1 (the code departs from it): on the table [init_db] declares, a
    second ingestion of the same bars appends every one of them again, so
    the store after two ingestions has [len(B)] more rows than after one
    and is a different store. *)
Theorem refetch_appends_every_bar_again (db : database F) (ticker : string)
    (df : list (Yf.bar F)) :
  schema db = stock_prices_def -> reachable db = true -> fault db = None ->
  history ticker = Return df -> df <> [] ->
  let once := (fetch_stock history date_str db ticker).2 in
  let twice := (fetch_stock history date_str once ticker).2 in
  stock_prices once = stock_prices db ++ (insert_params ticker <$> df)
  /\ stock_prices twice = stock_prices once ++ (insert_params ticker <$> df)
  /\ length (stock_prices twice) = length (stock_prices once) + length df
  /\ twice <> once.
Proof.
  intros Hdef Hup Hf Hsrc Hne once twice.
  destruct df as [|first rest]; [done|].
  assert (once = {| reachable := true; fault := None; schema := stock_prices_def;
                    stock_prices := stock_prices db
                                    ++ (insert_params ticker <$> first :: rest) |})
    as Honce.
  { unfold once. rewrite (fetch_stock_healthy _ _ _ _ _ _ Hsrc Hup Hf). simpl.
    by rewrite Hdef, upsert_rows_without_unique_index. }
  assert (stock_prices twice
          = stock_prices once ++ (insert_params ticker <$> first :: rest))
    as Htwice.
  { unfold twice. rewrite Honce.
    erewrite fetch_stock_healthy by (exact Hsrc || reflexivity). simpl.
    by rewrite upsert_rows_without_unique_index. }
  split; [by rewrite Honce|]. split; [done|]. split.
  - by rewrite Htwice, length_app, length_fmap.
  - intros Heq. rewrite Heq in Htwice.
    apply (f_equal length) in Htwice.
    rewrite length_app, length_fmap in Htwice. simpl in Htwice. lia.
Qed.

(** C2 (amended): a batch whose [k+1]-th statement fails, an insert or the
    final commit, keeps nothing: the inserts run in one transaction that is
    committed only after the last bar, so the database is unchanged, and the
    response is status 500 with a body that holds only the error message. *)
Theorem failed_batch_is_rolled_back (db : database F) (ticker : string)
    (df : list (Yf.bar F)) (k : nat) (msg : string) :
  history ticker = Return df -> df <> [] ->
  reachable db = true -> fault db = Some (k, msg) -> k <= length df ->
  fetch_stock history date_str db ticker
  = (jsonify_with (error_body msg) 500, db).
Proof.
  intros Hsrc Hne Hup Hf Hk. unfold fetch_stock, get_db_connection.
  rewrite Hsrc, Hup. destruct df as [|first rest]; [done|].
  match goal with
  | |- context [insert_all ?c ticker ?d] =>
      pose proof (insert_all_faulty c ticker d k msg Hf) as Hloop
  end.
  case_decide as Hlt.
  - rewrite Hloop. reflexivity.
  - destruct Hloop as (conn' & -> & Hf'). simpl.
    unfold commit, round_trip. rewrite Hf'.
    replace (k - length (first :: rest)) with 0 by lia. reflexivity.
Qed.

(** C6: when the source returns no bar, the view answers 404 with the
    [No data found] error and the database is the one it was given. *)
Theorem empty_source_is_404_without_writes (db : database F) (ticker : string) :
  history ticker = Return [] ->
  fetch_stock history date_str db ticker
  = (jsonify_with (error_body ("No data found for " +:+ ticker)) 404, db).
Proof.
  intros Hsrc. unfold fetch_stock. by rewrite Hsrc.
Qed.

(** C8: every ingestion that answers 200 reports as [rows_imported] the
    number of bars the source returned and as [date_range] the dates of the
    first and the last of them. *)
Theorem successful_fetch_reports_source_bars (db db' : database F)
    (ticker : string) (resp : response F) :
  fetch_stock history date_str db ticker = (resp, db') ->
  status_code resp = 200 ->
  exists first rest,
    history ticker = Return (first :: rest)
    /\ body resp = JObj [
         ("ticker", JStr (upper ticker));
         ("rows_imported", JInt (Z.of_nat (length (first :: rest))));
         ("date_range",
          JStr (date_str (Yf.idx first) +:+ " to "
                +:+ date_str (Yf.idx (default first (last (first :: rest))))))].
Proof.
  unfold fetch_stock. intros Hrun Hok.
  destruct (history ticker) as [[|first rest]|msg];
    try (inversion Hrun; subst; simpl in Hok; discriminate).
  destruct (get_db_connection db) as [conn|];
    [|inversion Hrun; subst; simpl in Hok; discriminate].
  destruct (_ ≫= _) as [db1|msg];
    [|inversion Hrun; subst; simpl in Hok; discriminate].
  inversion Hrun; subst. by exists first, rest.
Qed.

End Claims.
End IngestionClaims.

Module ViewClaims.
Import Py Http Db App.

Section Claims.
Context {F : Type} `{Float64 F} `{RollingKernels F}.
Variable history : string -> result (list (Yf.bar F)).
Variable date_str : Z -> string.

Lemma select_by_ticker_none (tbl : list (row F)) (tk : string) :
  (forall r, r ∈ tbl -> ticker r <> tk) -> select_by_ticker tbl tk = [].
Proof.
  intros Hnone. unfold select_by_ticker.
  replace (filter (fun r => ticker r = tk) tbl) with (@nil (row F)); [done|].
  symmetry. induction tbl as [|r tbl IH]; [done|].
  rewrite filter_cons_False by (apply Hnone; left).
  apply IH. intros s Hs. apply Hnone. by right.
Qed.

(** C7: for a ticker with no stored bar, the indicators view answers with
    the [No data] error body under status 200, not 404, whereas the fetch
    view answers 404 when the source has no bar. *)
Theorem indicators_no_data_is_status_200 (db : database F) (ticker : string) :
  reachable db = true ->
  (forall msg, fault db <> Some (0, msg)) ->
  (forall r, r ∈ stock_prices db -> Db.ticker r <> upper ticker) ->
  get_indicators db ticker = jsonify (error_body ("No data for " +:+ ticker))
  /\ status_code (get_indicators db ticker) = 200
  /\ status_code (get_indicators db ticker) <> 404
  /\ (history ticker = Return [] ->
      status_code (fetch_stock history date_str db ticker).1 = 404).
Proof.
  intros Hup Hf Hnone.
  assert (get_indicators db ticker
          = jsonify (error_body ("No data for " +:+ ticker))) as Hresp.
  { unfold get_indicators, get_db_connection, execute_select, round_trip.
    rewrite Hup. simpl.
    destruct (fault db) as [[[|k] msg]|] eqn:E; simpl;
      try (by rewrite select_by_ticker_none).
    by destruct (Hf msg). }
  rewrite Hresp. repeat split; [done|].
  intros Hsrc. unfold fetch_stock. by rewrite Hsrc.
Qed.

(** C10: whatever the state of the database, the ready view answers with
    status 200; only the body tells ready from not ready. *)
Theorem ready_is_always_status_200 (db : database F) :
  status_code (ready db) = 200
  /\ body (ready db)
     = JObj [("status", JStr (if reachable db then "ready" else "not ready"))].
Proof.
  unfold ready, get_db_connection. by destruct (reachable db).
Qed.

End Claims.
End ViewClaims.

Module ConfigClaims.
Import Py Config.

(** C3 (the code departs from it): in production with [DB_PASSWORD] left
    unset, so at its default [postgres], validation returns normally; the
    value it rejects in production is [password]. *)
Theorem production_default_password_is_accepted :
  (exists cls, load {[ "ENV" := "production" ]} = Return cls
               /\ DB_PASSWORD cls = "postgres"
               /\ validate cls = Return tt)
  /\ (exists cls, load {[ "ENV" := "production"; "DB_PASSWORD" := "password" ]}
                  = Return cls
                  /\ validate cls = Raise "Default DB_PASSWORD used in production!").
Proof.
  split; eexists; (split; [vm_compute; reflexivity|]); by vm_compute.
Qed.

End ConfigClaims.

(** ** The properties at the sample data *)

Module Runs.
Import Py Http Db Pandas App Sample.
Import IndicatorClaims IngestionClaims ViewClaims.

#[local] Existing Instance Textbook.kernels.

Lemma refetch_appends_every_bar_again_witness :
  let once := (fetch_stock (source "t" (daily_bars 2)) day_number fresh_db "t").2 in
  let twice := (fetch_stock (source "t" (daily_bars 2)) day_number once "t").2 in
  length (stock_prices once) = 2
  /\ length (stock_prices twice) = length (stock_prices once) + 2
  /\ twice <> once.
Proof.
  intros once twice.
  destruct (refetch_appends_every_bar_again
              (source "t" (daily_bars 2)) day_number fresh_db "t" (daily_bars 2))
    as (H1 & _ & H3 & H4);
    [reflexivity | reflexivity | reflexivity | reflexivity | discriminate |].
  split; [|split].
  - unfold once. rewrite H1. reflexivity.
  - exact H3.
  - exact H4.
Defined.

Lemma failed_batch_is_rolled_back_witness :
  fetch_stock (source "t" (daily_bars 2)) day_number
    (failing_db 1 "server closed the connection unexpectedly") "t"
  = (jsonify_with (error_body "server closed the connection unexpectedly") 500,
     failing_db 1 "server closed the connection unexpectedly").
Proof.
  apply (failed_batch_is_rolled_back
           (source "t" (daily_bars 2)) day_number
           (failing_db 1 "server closed the connection unexpectedly") "t"
           (daily_bars 2) 1);
    [reflexivity | discriminate | reflexivity | reflexivity | simpl; lia].
Defined.

(** C2 as stated fails: the server dies after the first of two bars; that
    bar is not in the store afterwards, and the body has no count. *)
Lemma partial_progress_is_not_reported :
  let db := failing_db 1 "server closed the connection unexpectedly" in
  let batch := insert_params "t" <$> daily_bars 2 in
  let run := fetch_stock (source "t" (daily_bars 2)) day_number db "t" in
  stock_prices run.2 = []
  /\ top_level_ints (body run.1) = []
  /\ ~ Spec.partial_progress_reported batch 1 run.1 (stock_prices run.2).
Proof.
  intros db batch run.
  assert (stock_prices run.2 = []) as Hstore by (vm_compute; reflexivity).
  split; [exact Hstore|]. split; [vm_compute; reflexivity|].
  intros (Hkept & _). rewrite Hstore in Hkept.
  specialize (Hkept (insert_params "t" (daily_bar 1))).
  apply (not_elem_of_nil (insert_params "t" (daily_bar 1))).
  apply Hkept. simpl. left.
Qed.



Lemma empty_source_is_404_without_writes_witness :
  fetch_stock (source "t" (daily_bars 2)) day_number fresh_db "nosuchticker"
  = (jsonify_with (error_body "No data found for nosuchticker") 404, fresh_db).
Proof.
  apply (empty_source_is_404_without_writes
           (source "t" (daily_bars 2)) day_number fresh_db "nosuchticker").
  reflexivity.
Defined.

Lemma successful_fetch_reports_source_bars_witness :
  exists first rest,
    source "t" (daily_bars 3) "t" = Return (first :: rest)
    /\ body (fetch_stock (source "t" (daily_bars 3)) day_number fresh_db "t").1
       = JObj [("ticker", JStr "T");
               ("rows_imported", JInt (Z.of_nat (length (first :: rest))));
               ("date_range",
                JStr (day_number (Yf.idx first) +:+ " to "
                      +:+ day_number
                            (Yf.idx (default first (last (first :: rest))))))].
Proof.
  apply (successful_fetch_reports_source_bars
           (source "t" (daily_bars 3)) day_number fresh_db
           (fetch_stock (source "t" (daily_bars 3)) day_number fresh_db "t").2
           "t").
  - apply surjective_pairing.
  - reflexivity.
Defined.

Lemma indicators_no_data_is_status_200_witness :
  get_indicators fresh_db "nosuchticker"
  = jsonify (error_body "No data for nosuchticker")
  /\ status_code (get_indicators fresh_db "nosuchticker") = 200
  /\ status_code
       (fetch_stock (source "t" (daily_bars 2)) day_number
          fresh_db "nosuchticker").1 = 404.
Proof.
  destruct (indicators_no_data_is_status_200
              (source "t" (daily_bars 2)) day_number fresh_db "nosuchticker")
    as (H1 & H2 & _ & H4).
  - reflexivity.
  - intros msg. discriminate.
  - intros r Hr. by apply not_elem_of_nil in Hr.
  - split; [exact H1|]. split; [exact H2|]. apply H4. reflexivity.
Defined.

(** C9 (the code departs from it): after the same one-bar history is
    ingested twice, the ticker has two stored bars and the indicators view
    returns two records with the same time. *)
Theorem indicators_repeat_a_time_after_refetch :
  let src := source "t" (daily_bars 1) in
  let once := (fetch_stock src day_number fresh_db "t").2 in
  let twice := (fetch_stock src day_number once "t").2 in
  let recs := compute_indicators (select_by_ticker (stock_prices twice) "T") in
  length (stock_prices twice) = 2
  /\ get_indicators twice "t"
     = jsonify (JObj [("ticker", JStr "T"); ("data", JArr (record_json <$> recs))])
  /\ ir_time <$> recs = [86400; 86400]%Z
  /\ ~ Spec.strictly_increasing (ir_time <$> recs).
Proof.
  intros src once twice recs.
  assert (ir_time <$> recs = [86400; 86400]%Z) as Htimes
    by (vm_compute; reflexivity).
  split; [vm_compute; reflexivity|]. split; [vm_compute; reflexivity|].
  split; [exact Htimes|].
  rewrite Htimes. intros Hinc.
  specialize (Hinc 0 1 86400%Z 86400%Z eq_refl eq_refl). lia.
Qed.

End Runs.

(* ===================================================================== *)
(** * Further properties of the code *)

(** ** Ingestion: what a fetch can do to the store *)

Module IngestionFacts.
Import Py Http Db App StoreFacts.

Section Ingestion.
Context {F : Type} `{Float64 F}.
Variable history : string -> result (list (Yf.bar F)).
Variable date_str : Z -> string.

Lemma insert_appends_at_most_the_row (def : table_def) (tbl : list (row F))
    (r : row F) :
  insert_on_conflict_do_nothing def tbl r = tbl
  \/ insert_on_conflict_do_nothing def tbl r = tbl ++ [r].
Proof.
  unfold insert_on_conflict_do_nothing.
  destruct (existsb _ _); [by left | by right].
Qed.

Lemma upsert_rows_cons (def : table_def) (tbl : list (row F)) (r : row F)
    (rows : list (row F)) :
  upsert_rows def tbl (r :: rows)
  = upsert_rows def (insert_on_conflict_do_nothing def tbl r) rows.
Proof. reflexivity. Qed.

Lemma upsert_rows_appends_sublist (def : table_def) (tbl rows : list (row F)) :
  exists added, upsert_rows def tbl rows = tbl ++ added
                /\ added `sublist_of` rows.
Proof.
  revert tbl. induction rows as [|r rows IH]; intros tbl.
  - exists []. split; [by rewrite app_nil_r | done].
  - rewrite upsert_rows_cons.
    destruct (insert_appends_at_most_the_row def tbl r) as [-> | ->].
    + destruct (IH tbl) as (added & -> & Hsub).
      exists added. split; [done | by apply sublist_cons].
    + destruct (IH (tbl ++ [r])) as (added & -> & Hsub).
      exists (r :: added). split; [by rewrite <- app_assoc | by apply sublist_skip].
Qed.

(** The insert loop, when it returns, has run the inserts in order on the
    rows the connection started with. *)
Lemma insert_all_rows (conn conn' : connection F) (ticker : string)
    (df : list (Yf.bar F)) :
  insert_all conn ticker df = Return conn' ->
  conn_def conn' = conn_def conn
  /\ conn_rows conn'
     = upsert_rows (conn_def conn) (conn_rows conn) (insert_params ticker <$> df).
Proof.
  revert conn. induction df as [|b df IH]; intros conn Hrun; simpl in Hrun.
  - inversion Hrun; subst. done.
  - unfold execute_insert, round_trip in Hrun.
    destruct (conn_fault conn) as [[[|k] msg]|]; simpl in Hrun; [done| |];
      apply IH in Hrun as [Hdef Hrows]; simpl in *;
      (split; [done|]); rewrite Hrows; reflexivity.
Qed.

(** X1: a fetch answers 200, 404 or 500, and unless it answers 200 the
    database it leaves is the one it was given. *)
Theorem fetch_stock_fails_without_writes (db : database F) (ticker : string) :
  let run := fetch_stock history date_str db ticker in
  status_code run.1 ∈ [200; 404; 500]
  /\ (status_code run.1 = 200 \/ run.2 = db).
Proof.
  unfold fetch_stock.
  destruct (history ticker) as [[|first rest]|msg]; simpl;
    try (split; [set_solver | by right]).
  destruct (get_db_connection db) as [conn|]; simpl;
    [|split; [set_solver | by right]].
  destruct (_ ≫= _) as [db1|msg]; simpl.
  - split; [set_solver | by left].
  - split; [set_solver | by right].
Qed.

(** What a fetch does to the database: it appends rows made from the
    source's bars, in order, and changes nothing else. *)
Lemma fetch_stock_appends (db : database F) (ticker : string) :
  exists added,
    (fetch_stock history date_str db ticker).2
    = {| reachable := reachable db; fault := fault db; schema := schema db;
         stock_prices := stock_prices db ++ added |}
    /\ Forall (fun r => Db.ticker r = upper ticker) added
    /\ match history ticker with
       | Return df => added `sublist_of` (insert_params ticker <$> df)
       | Raise _ => added = []
       end.
Proof.
  assert (db = {| reachable := reachable db; fault := fault db;
                  schema := schema db; stock_prices := stock_prices db ++ [] |})
    as Hsame by (rewrite app_nil_r; by destruct db).
  unfold fetch_stock.
  destruct (history ticker) as [[|first rest]|msg] eqn:Hsrc; cbn -[insert_all];
    try (exists []; split; [exact Hsame|]; split; [constructor|];
         first [done | apply sublist_nil_l]).
  unfold get_db_connection. destruct (reachable db) eqn:Hup; cbn -[insert_all];
    [|exists []; split; [exact Hsame|];
      split; [constructor | apply sublist_nil_l]].
  destruct (insert_all _ ticker (first :: rest)) as [conn'|msg] eqn:Hloop; simpl;
    [|exists []; split; [exact Hsame|];
      split; [constructor | apply sublist_nil_l]].
  apply insert_all_rows in Hloop as [Hdef Hrows].
  destruct (upsert_rows_appends_sublist (schema db) (stock_prices db)
              (insert_params ticker <$> first :: rest)) as (added & Hadd & Hsub).
  cbn [conn_def conn_rows] in Hrows. rewrite Hadd in Hrows.
  unfold commit.
  destruct (round_trip conn') as [conn''|msg]; simpl;
    [|exists []; split; [exact Hsame|];
      split; [constructor | apply sublist_nil_l]].
  exists added. rewrite Hrows, Hup. split; [done|]. split; [|done].
  apply Forall_forall. intros r Hr.
  apply (elem_of_sublist _ _ _ Hr) in Hsub.
  rename Hsub into Hin. clear Hr. rename Hin into Hr.
  apply list_elem_of_fmap in Hr as (b & -> & _). reflexivity.
Qed.

(** X2: a fetch never rewrites or removes a stored row and never touches
    the server's other settings: the table afterwards is the table before
    followed by rows for some of the source's bars, in the source's order,
    each under the upper-cased ticker and with the bar's time and prices
    (the stored [volume] is the server's cast of the bar's, which is not
    stated here). *)
Theorem fetch_stock_only_appends_source_bars (db : database F) (ticker : string) :
  exists added,
    (fetch_stock history date_str db ticker).2
    = {| reachable := reachable db; fault := fault db; schema := schema db;
         stock_prices := stock_prices db ++ added |}
    /\ Forall (fun r => Db.ticker r = upper ticker) added
    /\ match history ticker with
       | Return df =>
           key_and_prices <$> added
           `sublist_of` key_and_prices <$> (insert_params ticker <$> df)
       | Raise _ => added = []
       end.
Proof.
  destruct (fetch_stock_appends db ticker) as (added & Hdb & Hall & Hsrc).
  exists added. split; [exact Hdb|]. split; [exact Hall|].
  destruct (history ticker) as [df|msg]; [|exact Hsrc].
  by apply fmap_sublist.
Qed.

End Ingestion.
End IngestionFacts.

(** ** Ingestion into a table that has the unique index *)

Module UniqueIndexFacts.
Import Py Http Db App StoreFacts IngestionFacts.

Section Unique.
Context {F : Type} `{Float64 F}.
Variable history : string -> result (list (Yf.bar F)).
Variable date_str : Z -> string.

Local Abbreviation keys tbl := (key_of <$> tbl).

Lemma insert_with_unique_index (tbl : list (row F)) (r : row F) :
  insert_on_conflict_do_nothing unique_ticker_time_def tbl r
  = if bool_decide (key_of r ∈ keys tbl) then tbl else tbl ++ [r].
Proof.
  unfold insert_on_conflict_do_nothing.
  assert (existsb (fun ix => violates ix tbl r) (indexes unique_ticker_time_def)
          = bool_decide (key_of r ∈ keys tbl)) as ->; [|done].
  cbn [indexes unique_ticker_time_def existsb]. unfold violates.
  cbn [idx_unique idx_columns andb forallb agree]. rewrite orb_false_r.
  induction tbl as [|s tbl IH]; cbn [existsb fmap list_fmap].
  - symmetry. apply bool_decide_eq_false. apply not_elem_of_nil.
  - rewrite IH. clear IH. rewrite andb_true_r.
    destruct (String.eqb_spec (ticker r) (ticker s)) as [Ht|Ht];
      [destruct (Z.eqb_spec (time r) (time s)) as [Hz|Hz]|]; cbn [andb orb].
    + symmetry. apply bool_decide_eq_true. apply elem_of_cons. left.
      unfold key_of. by rewrite Ht, Hz.
    + apply bool_decide_ext. rewrite elem_of_cons.
      split; [by right | intros [Heq|?]; [inversion Heq; done | done]].
    + apply bool_decide_ext. rewrite elem_of_cons.
      split; [by right | intros [Heq|?]; [inversion Heq; done | done]].
Qed.

Lemma key_stays_after_insert (tbl : list (row F)) (r : row F) (k : string * Z) :
  k ∈ keys tbl ->
  k ∈ keys (insert_on_conflict_do_nothing unique_ticker_time_def tbl r).
Proof.
  intros Hk. rewrite insert_with_unique_index. case_bool_decide; [done|].
  rewrite fmap_app. apply elem_of_app. by left.
Qed.

Lemma key_present_after_insert (tbl : list (row F)) (r : row F) :
  key_of r ∈ keys (insert_on_conflict_do_nothing unique_ticker_time_def tbl r).
Proof.
  rewrite insert_with_unique_index. case_bool_decide; [done|].
  rewrite fmap_app. apply elem_of_app. right. simpl. left.
Qed.

Lemma key_stays_after_upsert (tbl rows : list (row F)) (k : string * Z) :
  k ∈ keys tbl -> k ∈ keys (upsert_rows unique_ticker_time_def tbl rows).
Proof.
  revert tbl. induction rows as [|r rows IH]; intros tbl Hk; [done|].
  rewrite upsert_rows_cons. apply IH. by apply key_stays_after_insert.
Qed.

Lemma keys_present_after_upsert (tbl rows : list (row F)) (r : row F) :
  r ∈ rows -> key_of r ∈ keys (upsert_rows unique_ticker_time_def tbl rows).
Proof.
  revert tbl. induction rows as [|r' rows IH]; intros tbl Hr.
  - by apply not_elem_of_nil in Hr.
  - rewrite upsert_rows_cons. apply elem_of_cons in Hr as [->|Hr].
    + apply key_stays_after_upsert, key_present_after_insert.
    + by apply IH.
Qed.

Lemma upsert_of_present_keys (tbl rows : list (row F)) :
  (forall r, r ∈ rows -> key_of r ∈ keys tbl) ->
  upsert_rows unique_ticker_time_def tbl rows = tbl.
Proof.
  induction rows as [|r rows IH]; intros Hall; [done|].
  rewrite upsert_rows_cons, insert_with_unique_index.
  rewrite bool_decide_eq_true_2 by (apply Hall; left).
  apply IH. intros s Hs. apply Hall. by right.
Qed.

Lemma upsert_twice_with_unique_index (tbl rows : list (row F)) :
  upsert_rows unique_ticker_time_def
    (upsert_rows unique_ticker_time_def tbl rows) rows
  = upsert_rows unique_ticker_time_def tbl rows.
Proof.
  apply upsert_of_present_keys. intros r Hr. by apply keys_present_after_upsert.
Qed.

Lemma upsert_keeps_keys_distinct (tbl rows : list (row F)) :
  NoDup (keys tbl) -> NoDup (keys (upsert_rows unique_ticker_time_def tbl rows)).
Proof.
  revert tbl. induction rows as [|r rows IH]; intros tbl Hnd; [done|].
  rewrite upsert_rows_cons. apply IH.
  rewrite insert_with_unique_index. case_bool_decide as Hin; [done|].
  rewrite fmap_app. apply NoDup_app. split; [done|]. split.
  - intros k Hk Hk'. simpl in Hk'. apply list_elem_of_singleton in Hk'. by subst.
  - simpl. apply NoDup_singleton.
Qed.

(** The table a fetch leaves: the one it found, or the one it found with
    the source's bars inserted in order. *)
Lemma fetch_stock_table (db : database F) (ticker : string) :
  stock_prices (fetch_stock history date_str db ticker).2 = stock_prices db
  \/ exists df,
       history ticker = Return df
       /\ stock_prices (fetch_stock history date_str db ticker).2
          = upsert_rows (schema db) (stock_prices db) (insert_params ticker <$> df).
Proof.
  unfold fetch_stock.
  destruct (history ticker) as [[|first rest]|msg] eqn:Hsrc;
    cbn -[insert_all]; try by left.
  unfold get_db_connection. destruct (reachable db); cbn -[insert_all];
    [|by left].
  destruct (insert_all _ ticker (first :: rest)) as [conn'|msg] eqn:Hloop;
    cbn -[insert_all]; [|by left].
  apply insert_all_rows in Hloop as [_ Hrows]. cbn [conn_def conn_rows] in Hrows.
  unfold commit. destruct (round_trip conn'); simpl; [|by left].
  right. by exists (first :: rest).
Qed.

(** X3: on a table that has the unique index on (ticker, time), a second
    fetch of the same source against a healthy server changes nothing and
    answers as the first did; [rows_imported] still counts the source's
    bars although none is written. *)
Theorem refetch_is_idempotent_with_unique_index (db : database F)
    (ticker : string) :
  schema db = unique_ticker_time_def ->
  reachable db = true -> fault db = None ->
  let first_run := fetch_stock history date_str db ticker in
  fetch_stock history date_str first_run.2 ticker = first_run.
Proof.
  intros Hdef Hup Hf first_run. unfold first_run.
  destruct (history ticker) as [[|first rest]|msg] eqn:Hsrc.
  - unfold fetch_stock. by rewrite Hsrc.
  - rewrite (fetch_stock_healthy _ _ db _ _ _ Hsrc Hup Hf).
    erewrite fetch_stock_healthy by (exact Hsrc || reflexivity).
    cbn [snd schema stock_prices]. rewrite Hdef.
    by rewrite upsert_twice_with_unique_index.
  - unfold fetch_stock. by rewrite Hsrc.
Qed.

(** X4: on a table that has the unique index, a fetch keeps the stored
    (ticker, time) keys pairwise distinct, whatever the source returns and
    whether or not the server fails. *)
Theorem fetch_keeps_keys_distinct_with_unique_index (db : database F)
    (ticker : string) :
  schema db = unique_ticker_time_def ->
  NoDup (keys (stock_prices db)) ->
  NoDup (keys (stock_prices (fetch_stock history date_str db ticker).2)).
Proof.
  intros Hdef Hnd.
  destruct (fetch_stock_table db ticker) as [-> | (df & _ & ->)]; [done|].
  rewrite Hdef. by apply upsert_keeps_keys_distinct.
Qed.

End Unique.
End UniqueIndexFacts.

(** ** The indicators view *)

Module IndicatorViewFacts.
Import Py Http Db Pandas App PandasFacts EngineFacts IngestionFacts.

Section View.
Context {F : Type} `{Float64 F} `{RollingKernels F}.
Variable history : string -> result (list (Yf.bar F)).
Variable date_str : Z -> string.

(** The stored rows of a ticker, as the WHERE clause selects them. *)
Local Abbreviation stored_for db ticker :=
  (filter (fun r => Db.ticker r = upper ticker) (stock_prices db)).

Lemma select_by_ticker_Permutation (tbl : list (row F)) (tk : string) :
  select_by_ticker tbl tk ≡ₚ filter (fun r => Db.ticker r = tk) tbl.
Proof. unfold select_by_ticker. apply merge_sort_Permutation. Qed.

(** A projection of the records that reads only the fields copied from the
    rows is that projection of the rows in time order. *)
Lemma compute_indicators_projection {A} (rows : list (row F))
    (f : indicator_record -> A) (g : row F -> A) :
  (forall r s20 s50 s100 mid sd up lo,
      f (IndicatorRecord (time r) (Db.ticker r) (close r) (volume r)
           s20 s50 s100 mid sd up lo) = g r) ->
  f <$> compute_indicators rows = g <$> merge_sort time_le rows.
Proof.
  intros Hfg. unfold compute_indicators. cbv zeta. rewrite fmap_imap.
  apply list_eq. intros i. rewrite list_lookup_imap, list_lookup_fmap.
  destruct (merge_sort time_le rows !! i); simpl; [f_equal; apply Hfg | done].
Qed.

(** The response of the view when the server answers and the ticker has
    stored rows. *)
Lemma get_indicators_success (db : database F) (ticker : string) :
  reachable db = true ->
  (forall msg, fault db <> Some (0, msg)) ->
  stored_for db ticker <> [] ->
  get_indicators db ticker
  = jsonify (JObj [
      ("ticker", JStr (upper ticker));
      ("data", JArr (record_json
                     <$> compute_indicators
                           (select_by_ticker (stock_prices db) (upper ticker))))]).
Proof.
  intros Hup Hf Hne.
  assert (select_by_ticker (stock_prices db) (upper ticker) <> []) as Hsel.
  { intros Hnil. apply Hne. apply Permutation_nil_r.
    rewrite <- Hnil. symmetry. apply select_by_ticker_Permutation. }
  unfold get_indicators, get_db_connection, execute_select, round_trip.
  rewrite Hup. cbn [conn_fault conn_rows].
  destruct (fault db) as [[[|k] msg]|] eqn:E; cbn [mbind result_bind conn_rows];
    [by destruct (Hf msg) | |];
    by destruct (select_by_ticker (stock_prices db) (upper ticker)).
Qed.

(** X5: the indicators view never answers 404: it answers 200 or 500, and
    500 exactly when the server is unreachable or fails at the query. *)
Theorem get_indicators_status (db : database F) (ticker : string) :
  status_code (get_indicators db ticker) ∈ [200; 500]
  /\ (status_code (get_indicators db ticker) = 500
      <-> reachable db = false \/ exists msg, fault db = Some (0, msg)).
Proof.
  unfold get_indicators, get_db_connection, execute_select, round_trip.
  destruct (reachable db); cbn [conn_fault conn_rows].
  - destruct (fault db) as [[[|k] msg]|]; cbn [mbind result_bind conn_rows].
    + split; [set_solver|]. split; [intros _; right; by exists msg | done].
    + destruct (select_by_ticker _ _); (split; [set_solver|]);
        (split; [done | intros [?|[? ?]]; done]).
    + destruct (select_by_ticker _ _); (split; [set_solver|]);
        (split; [done | intros [?|[? ?]]; done]).
  - split; [set_solver|]. split; [by left | done].
Qed.

(** X6: the view returns one record per stored row of the ticker: the whole
    history, not a most-recent window of it. *)
Theorem get_indicators_returns_every_stored_row (db : database F)
    (ticker : string) :
  reachable db = true ->
  (forall msg, fault db <> Some (0, msg)) ->
  stored_for db ticker <> [] ->
  exists recs,
    get_indicators db ticker
    = jsonify (JObj [("ticker", JStr (upper ticker));
                     ("data", JArr (record_json <$> recs))])
    /\ length recs = length (stored_for db ticker).
Proof.
  intros Hup Hf Hne. eexists. split; [by apply get_indicators_success|].
  rewrite compute_indicators_length.
  apply Permutation_length, select_by_ticker_Permutation.
Qed.

(** X7: the records come in non-decreasing time order, and in strictly
    increasing order when the stored times of the ticker are pairwise
    distinct. *)
Theorem get_indicators_records_are_time_ordered (db : database F)
    (ticker : string) :
  reachable db = true ->
  (forall msg, fault db <> Some (0, msg)) ->
  stored_for db ticker <> [] ->
  exists recs,
    get_indicators db ticker
    = jsonify (JObj [("ticker", JStr (upper ticker));
                     ("data", JArr (record_json <$> recs))])
    /\ StronglySorted Z.le (ir_time <$> recs)
    /\ (NoDup (time <$> stored_for db ticker) ->
        Spec.strictly_increasing (ir_time <$> recs)).
Proof.
  intros Hup Hf Hne. eexists. split; [by apply get_indicators_success|].
  rewrite compute_indicators_times.
  set (rows := select_by_ticker (stock_prices db) (upper ticker)).
  assert (StronglySorted Z.le (time <$> merge_sort time_le rows)) as Hsorted.
  { pose proof (StronglySorted_merge_sort time_le rows) as Hs.
    induction Hs as [|r l Hs IH Hall]; simpl; constructor; [done|].
    apply Forall_fmap. by apply (Forall_impl _ _ _ Hall). }
  split; [exact Hsorted|].
  intros Hnd.
  assert (NoDup (time <$> merge_sort time_le rows)) as Hnd'.
  { assert (time <$> merge_sort time_le rows ≡ₚ time <$> stored_for db ticker)
      as Hp; [|by rewrite Hp].
    apply fmap_Permutation. etrans; [apply merge_sort_Permutation|].
    apply select_by_ticker_Permutation. }
  clear -Hsorted Hnd'. unfold Spec.strictly_increasing.
  induction Hsorted as [|t ts Hs IH Hall]; intros i j a b Hi Hj Hlt.
  - by rewrite lookup_nil in Hi.
  - apply NoDup_cons in Hnd' as [Hnotin Hnd'].
    destruct j as [|j]; [lia|]. simpl in Hj.
    destruct i as [|i]; simpl in Hi.
    + inversion Hi; subst.
      pose proof (list_elem_of_lookup_2 _ _ _ Hj) as Hb.
      rewrite Forall_forall in Hall. specialize (Hall b Hb).
      assert (a <> b) by (intros ->; done). lia.
    + apply (IH Hnd' i j a b Hi Hj). lia.
Qed.

(** X8: the records carry the stored rows of the ticker and nothing else:
    their (time, close, volume) triples are those of the stored rows, each
    as often as it is stored, and every record names the upper-cased
    ticker. *)
Theorem get_indicators_records_are_the_stored_rows (db : database F)
    (ticker : string) :
  reachable db = true ->
  (forall msg, fault db <> Some (0, msg)) ->
  stored_for db ticker <> [] ->
  exists recs,
    get_indicators db ticker
    = jsonify (JObj [("ticker", JStr (upper ticker));
                     ("data", JArr (record_json <$> recs))])
    /\ (fun r => (ir_time r, ir_close r, ir_volume r)) <$> recs
       ≡ₚ (fun r => (time r, close r, volume r)) <$> stored_for db ticker
    /\ Forall (fun r => ir_ticker r = upper ticker) recs.
Proof.
  intros Hup Hf Hne. eexists. split; [by apply get_indicators_success|].
  set (rows := select_by_ticker (stock_prices db) (upper ticker)).
  assert (merge_sort time_le rows ≡ₚ stored_for db ticker) as Hperm.
  { etrans; [apply merge_sort_Permutation|]. apply select_by_ticker_Permutation. }
  split.
  - rewrite (compute_indicators_projection _
               (fun r => (ir_time r, ir_close r, ir_volume r))
               (fun r => (time r, close r, volume r))) by done.
    by apply fmap_Permutation.
  - assert (Forall (fun t => t = upper ticker)
              (ir_ticker <$> compute_indicators rows)) as Hall.
    { rewrite (compute_indicators_projection _ ir_ticker Db.ticker) by done.
      apply Forall_fmap. rewrite Hperm.
      apply Forall_forall. intros r Hr. simpl.
      by apply list_elem_of_filter in Hr as [? _]. }
    by apply Forall_fmap in Hall.
Qed.

End View.
End IndicatorViewFacts.

(** ** Fetch and indicators together *)

Module PipelineFacts.
Import Py Http Db Pandas App PandasFacts EngineFacts StoreFacts.
Import IngestionFacts IndicatorViewFacts.

Lemma upper_ascii_idempotent (c : ascii) :
  upper_ascii (upper_ascii c) = upper_ascii c.
Proof. by destruct c as [[] [] [] [] [] [] [] []]. Qed.

Lemma upper_idempotent (s : string) : upper (upper s) = upper s.
Proof.
  induction s as [|c s IH]; simpl; [done|].
  by rewrite upper_ascii_idempotent, IH.
Qed.

Section Pipeline.
Context {F : Type} `{Float64 F} `{RollingKernels F}.
Variable history : string -> result (list (Yf.bar F)).
Variable date_str : Z -> string.

Local Abbreviation stored_for db ticker :=
  (filter (fun r => Db.ticker r = upper ticker) (stock_prices db)).

Lemma sorted_times (rows : list (row F)) :
  StronglySorted Z.le (time <$> merge_sort time_le rows).
Proof.
  pose proof (StronglySorted_merge_sort time_le rows) as Hs.
  induction Hs as [|r l Hs IH Hall]; simpl; constructor; [done|].
  apply Forall_fmap. by apply (Forall_impl _ _ _ Hall).
Qed.

(** The view reads the server's reachability and fault and the stored rows
    of the ticker, nothing else. *)
Lemma get_indicators_ext (db db' : database F) (ticker : string) :
  reachable db' = reachable db -> fault db' = fault db ->
  stored_for db' ticker = stored_for db ticker ->
  get_indicators db' ticker = get_indicators db ticker.
Proof.
  intros Hup Hf Hrows.
  unfold get_indicators, get_db_connection, execute_select, round_trip.
  rewrite Hup. destruct (reachable db); [|done]. cbn [conn_fault conn_rows].
  rewrite Hf. unfold select_by_ticker.
  destruct (fault db) as [[[|k] msg]|]; cbn [mbind result_bind conn_rows];
    by rewrite ?Hrows.
Qed.

(** X9: for tickers written in ASCII, a fetch of one ticker leaves the
    indicators response of every other ticker (other after upper-casing) as
    it was. *)
Theorem fetch_leaves_other_tickers_indicators (db : database F)
    (fetched other : string) :
  is_ascii fetched = true -> is_ascii other = true ->
  upper fetched <> upper other ->
  get_indicators (fetch_stock history date_str db fetched).2 other
  = get_indicators db other.
Proof.
  intros _ _ Hne.
  destruct (fetch_stock_appends history date_str db fetched)
    as (added & -> & Hall & _).
  apply get_indicators_ext; [done..|]. cbn [stock_prices].
  rewrite filter_app.
  assert (filter (fun r => Db.ticker r = upper other) added = []) as ->;
    [|by rewrite app_nil_r].
  induction Hall as [|r added Hr Hall IH]; [done|].
  rewrite filter_cons_False by (rewrite Hr; done). exact IH.
Qed.

(** X10: the indicators view folds the case of the ticker: two spellings
    with the same upper-casing get the same response, except that the
    [No data] message quotes the spelling that was asked. *)
Theorem get_indicators_folds_ticker_case (db : database F) (t1 t2 : string) :
  upper t1 = upper t2 ->
  get_indicators db t1 = get_indicators db t2
  \/ (get_indicators db t1 = jsonify (error_body ("No data for " +:+ t1))
      /\ get_indicators db t2 = jsonify (error_body ("No data for " +:+ t2))).
Proof.
  intros Heq.
  unfold get_indicators, get_db_connection, execute_select, round_trip.
  rewrite Heq. destruct (reachable db); [|by left]. cbn [conn_fault conn_rows].
  destruct (fault db) as [[[|k] msg]|]; cbn [mbind result_bind conn_rows];
    [by left | |];
    (destruct (select_by_ticker (stock_prices db) (upper t2));
     [by right | by left]).
Qed.

(** X11: fetch then read back, on the table of [init_db]: after a fetch
    that answered 200, for a ticker written in ASCII that had no stored row,
    the indicators view returns one record per source bar, in non-decreasing
    time order, carrying the (time, close) of the source's bars. *)
Theorem fetch_then_indicators_returns_the_source_bars (db : database F)
    (ticker : string) (df : list (Yf.bar F)) :
  is_ascii ticker = true ->
  schema db = stock_prices_def ->
  reachable db = true -> fault db = None ->
  stored_for db ticker = [] ->
  history ticker = Return df -> df <> [] ->
  status_code (fetch_stock history date_str db ticker).1 = 200 ->
  exists recs,
    get_indicators (fetch_stock history date_str db ticker).2 ticker
    = jsonify (JObj [("ticker", JStr (upper ticker));
                     ("data", JArr (record_json <$> recs))])
    /\ length recs = length df
    /\ StronglySorted Z.le (ir_time <$> recs)
    /\ (fun r => (ir_time r, ir_close r)) <$> recs
       ≡ₚ (fun b => (Yf.idx b, Yf.Close b)) <$> df.
Proof.
  intros _ Hdef Hup Hf Hnone Hsrc Hne _.
  destruct df as [|first rest]; [done|].
  rewrite (fetch_stock_healthy _ _ db _ _ _ Hsrc Hup Hf). cbn [snd].
  rewrite Hdef, upsert_rows_without_unique_index.
  set (db' := {| reachable := true; fault := None; schema := stock_prices_def;
                 stock_prices := stock_prices db
                                 ++ (insert_params ticker <$> first :: rest) |}).
  assert (stored_for db' ticker = insert_params ticker <$> first :: rest)
    as Hstored.
  { unfold db'. cbn [stock_prices]. rewrite filter_app, Hnone. cbn [app].
    generalize (first :: rest). intros bars.
    induction bars as [|b bars IH]; [done|].
    rewrite fmap_cons, filter_cons_True by done. by rewrite IH. }
  set (rows := select_by_ticker (stock_prices db') (upper ticker)).
  assert (merge_sort time_le rows ≡ₚ insert_params ticker <$> first :: rest)
    as Hperm.
  { etrans; [apply merge_sort_Permutation|]. unfold rows.
    rewrite select_by_ticker_Permutation. by rewrite Hstored. }
  exists (compute_indicators rows). split; [|split; [|split]].
  - apply get_indicators_success; [done | by intros | by rewrite Hstored].
  - rewrite compute_indicators_length. unfold rows.
    rewrite select_by_ticker_Permutation, Hstored. by rewrite length_fmap.
  - rewrite compute_indicators_times. apply sorted_times.
  - rewrite (compute_indicators_projection _
               (fun r => (ir_time r, ir_close r))
               (fun r => (time r, close r))) by done.
    rewrite Hperm. by rewrite <- list_fmap_compose.
Qed.

End Pipeline.
End PipelineFacts.

(** ** The tickers view *)

Module TickerFacts.
Import Py Http Db App.

#[global] Instance last_updated_ge_trans : Transitive last_updated_ge.
Proof. intros a b c. unfold last_updated_ge. lia. Qed.

#[global] Instance last_updated_ge_total : Total last_updated_ge.
Proof. intros a b. unfold last_updated_ge. lia. Qed.

Section Tickers.
Context {F : Type} `{Float64 F}.

Local Abbreviation group_of tbl tk := (filter (fun r : row F => ticker r = tk) tbl).

Lemma foldr_max_bounds (init : Z) (l : list Z) :
  foldr Z.max init l ∈ init :: l
  /\ Forall (fun x => (x <= foldr Z.max init l)%Z) (init :: l).
Proof.
  induction l as [|x l [IHin IHall]]; simpl.
  - split; [left | constructor; [lia | constructor]].
  - apply Forall_cons in IHall as [Hinit Hall]. split.
    + destruct (Z.max_spec x (foldr Z.max init l)) as [[_ ->]|[_ ->]].
      * apply elem_of_cons in IHin as [->|Hin]; [left | right; by right].
      * right; left.
    + constructor; [lia|]. constructor; [lia|].
      eapply Forall_impl; [exact Hall|]. simpl. intros; lia.
Qed.

Lemma max_time_bounds (group : list (row F)) :
  group <> [] ->
  (exists r, r ∈ group /\ time r = max_time group)
  /\ (forall r, r ∈ group -> (time r <= max_time group)%Z).
Proof.
  destruct group as [|r0 rest]; [done|]. intros _. unfold max_time.
  destruct (foldr_max_bounds (time r0) (time <$> rest)) as [Hin Hall]. split.
  - change (time r0 :: (time <$> rest)) with (time <$> r0 :: rest) in Hin.
    apply list_elem_of_fmap in Hin as (r & Heq & Hr). by exists r.
  - intros r Hr. rewrite Forall_forall in Hall. apply Hall.
    change (time r0 :: (time <$> rest)) with (time <$> r0 :: rest).
    apply list_elem_of_fmap. by exists r.
Qed.

Lemma count_cons (r : row F) (tbl : list (row F)) (l : list string) :
  NoDup l ->
  sum_list ((fun tk => length (group_of (r :: tbl) tk)) <$> l)
  = (if decide (ticker r ∈ l) then 1 else 0)
    + sum_list ((fun tk => length (group_of tbl tk)) <$> l).
Proof.
  induction 1 as [|tk l Hnotin Hnd IH]; [done|].
  rewrite !fmap_cons. simpl sum_list. rewrite IH.
  destruct (decide (ticker r = tk)) as [Heq|Hneq].
  - rewrite filter_cons_True by done. subst tk.
    rewrite (decide_True (P := ticker r ∈ ticker r :: l)) by left.
    rewrite (decide_False (P := ticker r ∈ l)) by done. simpl. lia.
  - rewrite filter_cons_False by done.
    destruct (decide (ticker r ∈ l)) as [Hin|Hin].
    + rewrite (decide_True (P := ticker r ∈ tk :: l)) by (by right). lia.
    + rewrite (decide_False (P := ticker r ∈ tk :: l)); [lia|]. intros Hc.
      apply elem_of_cons in Hc as [?|?]; done.
Qed.

Lemma counts_add_up (tbl : list (row F)) (l : list string) :
  NoDup l -> (forall r, r ∈ tbl -> ticker r ∈ l) ->
  sum_list ((fun tk => length (group_of tbl tk)) <$> l) = length tbl.
Proof.
  intros Hnd. induction tbl as [|r tbl IH]; intros Hcover.
  - induction l as [|tk l IHl]; [done|]. simpl.
    apply IHl. by apply NoDup_cons in Hnd as [_ ?]. intros ? Hr.
    by apply not_elem_of_nil in Hr.
  - rewrite count_cons by done. rewrite decide_True by (apply Hcover; left).
    rewrite IH; [done|]. intros s Hs. apply Hcover. by right.
Qed.

Lemma select_ticker_summary_Permutation (tbl : list (row F)) :
  select_ticker_summary tbl ≡ₚ summary_of tbl <$> remove_dups (ticker <$> tbl).
Proof. unfold select_ticker_summary. apply merge_sort_Permutation. Qed.

Lemma summary_tickers (tbl : list (row F)) :
  ts_ticker <$> select_ticker_summary tbl ≡ₚ remove_dups (ticker <$> tbl).
Proof.
  rewrite select_ticker_summary_Permutation, <- list_fmap_compose.
  generalize (remove_dups (ticker <$> tbl)). intros l.
  induction l as [|tk l IH]; [done|]. rewrite fmap_cons. simpl. by f_equiv.
Qed.

(** The response of the view when the server answers. *)
Lemma get_tickers_success (db : database F) :
  reachable db = true ->
  (forall msg, fault db <> Some (0, msg)) ->
  get_tickers db
  = jsonify (JObj [("tickers",
                    JArr (summary_json <$> select_ticker_summary (stock_prices db)))]).
Proof.
  intros Hup Hf. unfold get_tickers, get_db_connection, execute_summary, round_trip.
  rewrite Hup. cbn [conn_fault conn_rows].
  destruct (fault db) as [[[|k] msg]|]; cbn [mbind result_bind conn_rows];
    [by destruct (Hf msg) | done | done].
Qed.

(** X12: the tickers view lists every ticker that has a stored row, and
    each of them once. *)
Theorem get_tickers_lists_each_ticker_once (db : database F) :
  reachable db = true ->
  (forall msg, fault db <> Some (0, msg)) ->
  exists rows,
    get_tickers db = jsonify (JObj [("tickers", JArr (summary_json <$> rows))])
    /\ NoDup (ts_ticker <$> rows)
    /\ (forall tk, tk ∈ ts_ticker <$> rows
                   <-> exists r, r ∈ stock_prices db /\ ticker r = tk).
Proof.
  intros Hup Hf. eexists. split; [by apply get_tickers_success|]. split.
  - rewrite summary_tickers. apply NoDup_remove_dups.
  - intros tk. rewrite summary_tickers, elem_of_remove_dups, list_elem_of_fmap.
    split; intros (r & ? & ?); by exists r.
Qed.

(** X13: each listed ticker's [data_points] is the number of its stored
    rows, at least one, and the counts of the list add up to the number of
    rows in the table. *)
Theorem get_tickers_counts_every_row_once (db : database F) :
  reachable db = true ->
  (forall msg, fault db <> Some (0, msg)) ->
  exists rows,
    get_tickers db = jsonify (JObj [("tickers", JArr (summary_json <$> rows))])
    /\ Forall (fun s => data_points s
                        = length (group_of (stock_prices db) (ts_ticker s))
                        /\ 0 < data_points s) rows
    /\ sum_list (data_points <$> rows) = length (stock_prices db).
Proof.
  intros Hup Hf. eexists. split; [by apply get_tickers_success|].
  set (tbl := stock_prices db). split.
  - rewrite select_ticker_summary_Permutation. apply Forall_fmap.
    apply Forall_forall. intros tk Htk. simpl. split; [done|].
    apply elem_of_remove_dups, list_elem_of_fmap in Htk as (r & -> & Hr).
    assert (r ∈ group_of tbl (ticker r)) as Hin
      by (by apply list_elem_of_filter).
    destruct (group_of tbl (ticker r)); [by apply not_elem_of_nil in Hin|].
    simpl. lia.
  - rewrite select_ticker_summary_Permutation, <- list_fmap_compose.
    apply counts_add_up; [apply NoDup_remove_dups|].
    intros r Hr. apply elem_of_remove_dups, list_elem_of_fmap. by exists r.
Qed.

(** X14: each listed ticker's [last_updated] is the time of one of its
    stored rows and no stored row of the ticker is later. *)
Theorem get_tickers_last_updated_is_latest (db : database F) :
  reachable db = true ->
  (forall msg, fault db <> Some (0, msg)) ->
  exists rows,
    get_tickers db = jsonify (JObj [("tickers", JArr (summary_json <$> rows))])
    /\ Forall (fun s =>
         (exists r, r ∈ stock_prices db /\ ticker r = ts_ticker s
                    /\ time r = last_updated s)
         /\ (forall r, r ∈ stock_prices db -> ticker r = ts_ticker s ->
                       (time r <= last_updated s)%Z)) rows.
Proof.
  intros Hup Hf. eexists. split; [by apply get_tickers_success|].
  set (tbl := stock_prices db).
  rewrite select_ticker_summary_Permutation. apply Forall_fmap.
  apply Forall_forall. intros tk Htk. simpl.
  apply elem_of_remove_dups, list_elem_of_fmap in Htk as (r0 & -> & Hr0).
  assert (group_of tbl (ticker r0) <> []) as Hne.
  { intros Hnil. assert (r0 ∈ group_of tbl (ticker r0)) as Hin
      by (by apply list_elem_of_filter).
    rewrite Hnil in Hin. by apply not_elem_of_nil in Hin. }
  destruct (max_time_bounds _ Hne) as [(r & Hr & Hmax) Hle]. split.
  - apply list_elem_of_filter in Hr as [Htk Hr]. by exists r.
  - intros s Hs Htk. apply Hle. by apply list_elem_of_filter.
Qed.

(** X15: the list is ordered by [last_updated], latest first. *)
Theorem get_tickers_latest_first (db : database F) :
  reachable db = true ->
  (forall msg, fault db <> Some (0, msg)) ->
  exists rows,
    get_tickers db = jsonify (JObj [("tickers", JArr (summary_json <$> rows))])
    /\ StronglySorted Z.ge (last_updated <$> rows).
Proof.
  intros Hup Hf. eexists. split; [by apply get_tickers_success|].
  pose proof (StronglySorted_merge_sort last_updated_ge
                (summary_of (stock_prices db)
                   <$> remove_dups (ticker <$> stock_prices db))) as Hs.
  unfold select_ticker_summary.
  induction Hs as [|s l Hs IH Hall]; simpl; constructor; [done|].
  apply Forall_fmap. eapply Forall_impl; [exact Hall|].
  unfold last_updated_ge. simpl. intros; lia.
Qed.

End Tickers.
End TickerFacts.

(** ** No look-ahead in the indicators *)

Module CausalityFacts.
Import Py Http Db Pandas App PandasFacts EngineFacts.

Section Causality.
Context {F : Type} `{Float64 F} `{RollingKernels F}.


End Causality.
End CausalityFacts.

(** ** The Bollinger columns *)

Module BandFacts.
Import Py Http Db Pandas App PandasFacts EngineFacts.

Section Bands.
Context {F : Type} `{Float64 F} `{RollingKernels F} `{!Float64Laws F}.


End Bands.
End BandFacts.

(** ** Configuration *)

Module ConfigFacts.
Import Py Config.

Lemma getenv_insert_ne (environ : gmap string string) (key other v dflt : string) :
  other <> key -> getenv (<[other := v]> environ) key dflt = getenv environ key dflt.
Proof. intros Hne. unfold getenv. by rewrite lookup_insert_ne. Qed.

(** X18: the configuration depends on the eight variables it names and on
    no other: setting any other variable leaves what [load] produces, or
    the error it raises, unchanged. *)
Theorem load_reads_only_its_variables (environ : gmap string string)
    (other v : string) :
  other ∉ variables_read ->
  load (<[other := v]> environ) = load environ.
Proof.
  intros Hother. unfold load.
  rewrite !getenv_insert_ne; [done|..];
    intros ->; apply Hother; unfold variables_read; set_solver.
Qed.

End ConfigFacts.

(** ** The fetch button on top of the fetch view *)

Module FrontendFacts.
Import Py Http Db App Frontend.

Section Button.
Context {F : Type} `{Float64 F}.
Variable history : string -> result (list (Yf.bar F)).
Variable date_str : Z -> string.
Variable repr_other : json F -> string.

(** X19: when the fetch view does not answer 200, the button's status
    message is [Error: ] followed by the message of the view's error body:
    the 404 and 500 bodies always carry the [error] key it reads. *)
Theorem fetch_button_shows_the_backend_error (db : database F) (ticker : string) :
  let resp := (fetch_stock history date_str db ticker).1 in
  status_code resp <> 200 ->
  exists msg,
    body resp = error_body msg
    /\ fetch_data repr_other (Return resp) ticker = "    Error: " +:+ msg.
Proof.
  unfold fetch_stock.
  destruct (history ticker) as [[|first rest]|msg]; cbn -[insert_all];
    try (intros _; eexists; split; reflexivity).
  destruct (get_db_connection db) as [conn|]; cbn -[insert_all];
    [|intros _; eexists; split; reflexivity].
  destruct (_ ≫= _) as [db1|msg]; cbn -[insert_all];
    [done | intros _; eexists; split; reflexivity].
Qed.

(** X20: when the fetch view answers 200, the button's status message
    names the ticker as typed, the number of bars the source returned and
    the date range: both keys it reads are in the body. *)
Theorem fetch_button_shows_the_import (db : database F) (ticker : string) :
  let resp := (fetch_stock history date_str db ticker).1 in
  status_code resp = 200 ->
  exists first rest,
    history ticker = Return (first :: rest)
    /\ fetch_data repr_other (Return resp) ticker
       = "    " +:+ ticker +:+ ": "
         +:+ pretty (Z.of_nat (length (first :: rest))) +:+ " rows imported"
         +:+ "(" +:+ (date_str (Yf.idx first) +:+ " to "
                      +:+ date_str (Yf.idx (default first (last (first :: rest)))))
         +:+ ")".
Proof.
  unfold fetch_stock.
  destruct (history ticker) as [[|first rest]|msg]; cbn -[insert_all];
    try discriminate.
  destruct (get_db_connection db) as [conn|]; cbn -[insert_all];
    [|discriminate].
  destruct (_ ≫= _) as [db1|msg]; cbn -[insert_all]; [|discriminate].
  intros _. exists first, rest. split; reflexivity.
Qed.

End Button.
End FrontendFacts.

(** ** The further properties at the sample data *)

Module MoreRuns.
Import Py Http Db Pandas App Frontend Sample.
Import IngestionFacts UniqueIndexFacts IndicatorViewFacts PipelineFacts.
Import TickerFacts CausalityFacts BandFacts ConfigFacts FrontendFacts.

#[local] Existing Instance Textbook.kernels.

Lemma three_rows_for_t :
  filter (fun r : row float => ticker r = upper "t") (stock_prices loaded_db) <> [].
Proof. vm_compute. discriminate. Defined.

Lemma refetch_is_idempotent_with_unique_index_witness :
  let src := source "t" (daily_bars 3) in
  fetch_stock src day_number (fetch_stock src day_number fresh_unique_db "t").2 "t"
  = fetch_stock src day_number fresh_unique_db "t".
Proof.
  apply (refetch_is_idempotent_with_unique_index
           (source "t" (daily_bars 3)) day_number fresh_unique_db "t");
    reflexivity.
Defined.

Lemma fetch_keeps_keys_distinct_with_unique_index_witness :
  NoDup (key_of <$> stock_prices
           (fetch_stock (source "t" (daily_bars 3)) day_number
              fresh_unique_db "t").2).
Proof.
  apply (fetch_keeps_keys_distinct_with_unique_index
           (source "t" (daily_bars 3)) day_number fresh_unique_db "t");
    [reflexivity | apply NoDup_nil_2].
Defined.

Lemma get_indicators_returns_every_stored_row_witness :
  exists recs,
    get_indicators loaded_db "t"
    = jsonify (JObj [("ticker", JStr "T"); ("data", JArr (record_json <$> recs))])
    /\ length recs = 3.
Proof.
  destruct (get_indicators_returns_every_stored_row loaded_db "t")
    as (recs & Hresp & Hlen);
    [reflexivity | intros msg; discriminate | exact three_rows_for_t |].
  exists recs. split; [exact Hresp|]. rewrite Hlen. reflexivity.
Defined.

Lemma get_indicators_records_are_time_ordered_witness :
  exists recs,
    get_indicators loaded_db "t"
    = jsonify (JObj [("ticker", JStr "T"); ("data", JArr (record_json <$> recs))])
    /\ StronglySorted Z.le (ir_time <$> recs)
    /\ Spec.strictly_increasing (ir_time <$> recs).
Proof.
  destruct (get_indicators_records_are_time_ordered loaded_db "t")
    as (recs & Hresp & Hsorted & Hstrict);
    [reflexivity | intros msg; discriminate | exact three_rows_for_t |].
  exists recs. split; [exact Hresp|]. split; [exact Hsorted|].
  apply Hstrict. apply (bool_decide_unpack _). vm_compute. exact I.
Defined.

Lemma get_indicators_records_are_the_stored_rows_witness :
  exists recs,
    get_indicators loaded_db "t"
    = jsonify (JObj [("ticker", JStr "T"); ("data", JArr (record_json <$> recs))])
    /\ Forall (fun r => ir_ticker r = "T") recs.
Proof.
  destruct (get_indicators_records_are_the_stored_rows loaded_db "t")
    as (recs & Hresp & _ & Hall);
    [reflexivity | intros msg; discriminate | exact three_rows_for_t |].
  exists recs. split; [exact Hresp | exact Hall].
Defined.

Lemma fetch_leaves_other_tickers_indicators_witness :
  get_indicators
    (fetch_stock (source "u" (daily_bars 2)) day_number loaded_db "u").2 "t"
  = get_indicators loaded_db "t".
Proof.
  apply (fetch_leaves_other_tickers_indicators
           (source "u" (daily_bars 2)) day_number loaded_db "u" "t");
    [reflexivity | reflexivity | vm_compute; discriminate].
Defined.

Lemma get_indicators_folds_ticker_case_witness :
  get_indicators loaded_db "t" = get_indicators loaded_db "T"
  \/ (get_indicators loaded_db "t" = jsonify (error_body "No data for t")
      /\ get_indicators loaded_db "T" = jsonify (error_body "No data for T")).
Proof.
  apply (get_indicators_folds_ticker_case loaded_db "t" "T"). reflexivity.
Defined.

Lemma fetch_then_indicators_returns_the_source_bars_witness :
  exists recs,
    get_indicators loaded_db "t"
    = jsonify (JObj [("ticker", JStr "T"); ("data", JArr (record_json <$> recs))])
    /\ length recs = 3
    /\ StronglySorted Z.le (ir_time <$> recs).
Proof.
  destruct (fetch_then_indicators_returns_the_source_bars
              (source "t" (daily_bars 3)) day_number fresh_db "t" (daily_bars 3))
    as (recs & Hresp & Hlen & Hsorted & _);
    [reflexivity | reflexivity | reflexivity | reflexivity | reflexivity
     | reflexivity | discriminate | reflexivity |].
  exists recs. split; [exact Hresp|]. split; [exact Hlen | exact Hsorted].
Defined.

Lemma get_tickers_lists_each_ticker_once_witness :
  exists rows,
    get_tickers loaded_db
    = jsonify (JObj [("tickers", JArr (summary_json <$> rows))])
    /\ NoDup (ts_ticker <$> rows)
    /\ "T" ∈ ts_ticker <$> rows.
Proof.
  destruct (get_tickers_lists_each_ticker_once loaded_db)
    as (rows & Hresp & Hnd & Hcover);
    [reflexivity | intros msg; discriminate |].
  exists rows. split; [exact Hresp|]. split; [exact Hnd|].
  apply Hcover. exists (insert_params "t" (daily_bar 1)).
  split; [vm_compute; left | reflexivity].
Defined.

Lemma get_tickers_counts_every_row_once_witness :
  exists rows,
    get_tickers loaded_db
    = jsonify (JObj [("tickers", JArr (summary_json <$> rows))])
    /\ sum_list (data_points <$> rows) = 3.
Proof.
  destruct (get_tickers_counts_every_row_once loaded_db)
    as (rows & Hresp & _ & Hsum);
    [reflexivity | intros msg; discriminate |].
  exists rows. split; [exact Hresp|]. rewrite Hsum. reflexivity.
Defined.

Lemma get_tickers_last_updated_is_latest_witness :
  exists rows,
    get_tickers loaded_db
    = jsonify (JObj [("tickers", JArr (summary_json <$> rows))])
    /\ Forall (fun s =>
         forall r, r ∈ stock_prices loaded_db -> ticker r = ts_ticker s ->
                   (time r <= last_updated s)%Z) rows.
Proof.
  destruct (get_tickers_last_updated_is_latest loaded_db)
    as (rows & Hresp & Hall);
    [reflexivity | intros msg; discriminate |].
  exists rows. split; [exact Hresp|].
  eapply Forall_impl; [exact Hall|]. intros s [_ Hle]. exact Hle.
Defined.

Lemma get_tickers_latest_first_witness :
  exists rows,
    get_tickers loaded_db
    = jsonify (JObj [("tickers", JArr (summary_json <$> rows))])
    /\ StronglySorted Z.ge (last_updated <$> rows).
Proof.
  apply (get_tickers_latest_first loaded_db);
    [reflexivity | intros msg; discriminate].
Defined.



Lemma load_reads_only_its_variables_witness :
  Config.load (<["HOME" := "/root"]> {[ "ENV" := "staging" ]})
  = Config.load {[ "ENV" := "staging" ]}.
Proof.
  apply (load_reads_only_its_variables {[ "ENV" := "staging" ]} "HOME" "/root").
  intros Hin. unfold Config.variables_read in Hin.
  repeat (apply elem_of_cons in Hin as [Hin|Hin]; [discriminate|]).
  by apply not_elem_of_nil in Hin.
Defined.

Lemma fetch_button_shows_the_backend_error_witness :
  exists msg,
    body (fetch_stock (source "t" (daily_bars 3)) day_number fresh_db
            "nosuchticker").1 = error_body msg
    /\ fetch_data (fun _ => "?")
         (Return (fetch_stock (source "t" (daily_bars 3)) day_number fresh_db
                    "nosuchticker").1) "nosuchticker"
       = "    Error: " +:+ msg.
Proof.
  apply (fetch_button_shows_the_backend_error
           (source "t" (daily_bars 3)) day_number (fun _ => "?")
           fresh_db "nosuchticker").
  vm_compute. discriminate.
Defined.

Lemma fetch_button_shows_the_import_witness :
  fetch_data (fun _ => "?")
    (Return (fetch_stock (source "t" (daily_bars 3)) day_number fresh_db "t").1)
    "t"
  = "    t: 3 rows imported(day 1 to day 3)".
Proof.
  destruct (fetch_button_shows_the_import
              (source "t" (daily_bars 3)) day_number (fun _ => "?") fresh_db "t")
    as (first & rest & Hsrc & ->); [reflexivity|].
  inversion Hsrc; subst. vm_compute. reflexivity.
Defined.

End MoreRuns.
